(** * carina: the command actions of the CLI and the wait-for-cluster loop

    A shallow embedding of [main.go].  The program talks to three outside
    parties: the Carina API (through [libcarina.ClusterClient]), the process'
    output (a [tabwriter.Writer] and standard output) and the file system.
    Every such interaction is recorded, in program order, in a trace of
    events; what the outside party answers is a function of the trace so far
    and of the request, so no assumption is made on how a backend, a sink or
    a disk behaves.  A command action is a computation over the trace that
    returns Go's [err], panics (nil dereference) or runs out of fuel (the
    polling loop of [clusterApplyWait] has no bound in the source). *)

From Stdlib Require Import ZArith Ascii String List Bool Lia.
From stdpp Require Import base list strings gmap.

Local Open Scope Z_scope.

(** ** Go values *)

(** Go's [error] interface; [errors.New msg] is the only constructor the
    program itself uses. *)
Inductive error : Type :=
| errorString (msg : string).

Definition errors_New (msg : string) : error := errorString msg.

Definition tab : string := String (ascii_of_nat 9) "".
Definition newline : string := String (ascii_of_nat 10) "".
Definition slash : ascii := ascii_of_nat 47.
Definition dot : ascii := ascii_of_nat 46.

(** [time.Duration] counts nanoseconds. *)
Definition time_Second : Z := 1000000000.

(** Unix permission bits, written in octal in the source. *)
Definition perm_0777 : Z := 7 * 64 + 7 * 8 + 7.
Definition perm_0600 : Z := 6 * 64 + 0 * 8 + 0.

(** [strings.Join] *)
Fixpoint strings_Join (elems : list string) (sep : string) : string :=
  match elems with
  | [] => ""
  | [e] => e
  | e :: rest => e +:+ sep +:+ strings_Join rest sep
  end.

(** [strconv.FormatInt i 10] *)
Definition digit (n : N) : ascii := ascii_of_N (48 + n).

Fixpoint formatPos (fuel : nat) (n : N) (acc : string) : string :=
  match fuel with
  | O => acc
  | S fuel' =>
      let acc' := String (digit (n mod 10)) acc in
      if (n / 10 =? 0)%N then acc' else formatPos fuel' (n / 10)%N acc'
  end.

Definition formatN (n : N) : string := formatPos (S (N.to_nat (N.log2 n))) n "".

Definition strconv_FormatInt (i : Z) : string :=
  match i with
  | Z0 => "0"
  | Zpos p => formatN (Npos p)
  | Zneg p => "-" +:+ formatN (Npos p)
  end.

(** [strconv.FormatBool] *)
Definition strconv_FormatBool (b : bool) : string :=
  if b then "true" else "false".

(** ** Package [path] of the Go standard library

    [Download] and [writeCredentials] send every path through [path.Clean]
    and [path.Join]; both are embedded here as the standard library
    implements them (a lexical rewrite, no file system access). *)
Module path.

(** The [..] case of [Clean] when it can backtrack: [out.w--], then keep
    decrementing while [out.w > dotdot] and the byte just dropped is not a
    slash.  The buffer is kept reversed, its head is the last byte. *)
Fixpoint backtrack (out : list ascii) (dotdot : nat) : list ascii :=
  match out with
  | [] => []
  | c :: rest =>
      if (dotdot <? length rest)%nat && negb (Ascii.eqb c slash)
      then backtrack rest dotdot
      else rest
  end.

(** [span_elem rem] copies a path element: the bytes before the next
    slash, and what remains from that slash on. *)
Fixpoint span_elem (rem : list ascii) : list ascii * list ascii :=
  match rem with
  | [] => ([], [])
  | c :: rem' =>
      if Ascii.eqb c slash then ([], rem)
      else let '(e, r) := span_elem rem' in (c :: e, r)
  end.

Definition at_elem_end (rem : list ascii) : bool :=
  match rem with
  | [] => true
  | c :: _ => Ascii.eqb c slash
  end.

(** The [for r < n] loop of [Clean]: [rem] is [path[r:]], [out] the
    reversed output buffer.  Each round consumes at least one byte, so the
    length of the path is fuel enough. *)
Fixpoint Clean_loop (fuel : nat) (rooted : bool) (rem out : list ascii)
         (dotdot : nat) : list ascii :=
  match fuel, rem with
  | O, _ => out
  | _, [] => out
  | S fuel', c :: rem1 =>
      if Ascii.eqb c slash then
        (* empty path element *)
        Clean_loop fuel' rooted rem1 out dotdot
      else if Ascii.eqb c dot && at_elem_end rem1 then
        (* . element *)
        Clean_loop fuel' rooted rem1 out dotdot
      else if Ascii.eqb c dot
              && match rem1 with
                 | c1 :: rem2 => Ascii.eqb c1 dot && at_elem_end rem2
                 | [] => false
                 end then
        (* .. element: remove to last / *)
        let rem2 := tl rem1 in
        if (dotdot <? length out)%nat then
          Clean_loop fuel' rooted rem2 (backtrack out dotdot) dotdot
        else if negb rooted then
          let out1 := if (0 <? length out)%nat then slash :: out else out in
          let out2 := dot :: dot :: out1 in
          Clean_loop fuel' rooted rem2 out2 (length out2)
        else Clean_loop fuel' rooted rem2 out dotdot
      else
        (* real path element: add slash if needed, copy element *)
        let out1 :=
          if (rooted && negb (length out =? 1)%nat)
             || (negb rooted && negb (length out =? 0)%nat)
          then slash :: out else out in
        let '(e, rem') := span_elem rem in
        Clean_loop fuel' rooted rem' (rev e ++ out1) dotdot
  end.

Definition Clean (p : string) : string :=
  match list_ascii_of_string p with
  | [] => "."
  | (c :: rest) as l =>
      let rooted := Ascii.eqb c slash in
      let out :=
        if rooted then Clean_loop (length l) rooted rest [slash] 1
        else Clean_loop (length l) rooted l [] 0 in
      match out with
      | [] => "."
      | _ => string_of_list_ascii (rev out)
      end
  end.

(** [Join]: the elements from the first non-empty one on, joined by
    slashes and cleaned; the empty string when all are empty. *)
Fixpoint Join (elem : list string) : string :=
  match elem with
  | [] => ""
  | e :: rest =>
      if String.eqb e "" then Join rest
      else Clean (strings_Join elem "/")
  end.

End path.

(** ** Package [libcarina] (the API client, outside this repository) *)
Module libcarina.

(** Modelled from the spec: [libcarina.Number] is declared outside this
    repository; the data model gives a cluster's node count as an
    integer, so [Number(n)] and [Number.Int64] are the identity on [Z]. *)
Definition Number : Type := Z.
Definition Number_of_int (n : Z) : Number := n.
Definition Int64 (n : Number) : Z := n.

(** The fields of [libcarina.Cluster] that [main.go] reads or writes. *)
Record Cluster : Type := {
  ClusterName : string;
  Flavor : string;
  Nodes : Number;
  AutoScale : bool;
  Status : string
}.

(** [libcarina.Credentials]: [Files] maps a file name to its content. *)
Record Credentials : Type := {
  Files : gmap string string
}.

End libcarina.

Abbreviation Cluster := libcarina.Cluster.
Abbreviation Credentials := libcarina.Credentials.

(** ** Events and traces *)

Inductive Event : Type :=
| EvSleep (d : Z)                               (* time.Sleep *)
| EvList                                        (* ClusterClient.List *)
| EvGet (name : string)                         (* ClusterClient.Get *)
| EvCreate (c : Cluster)                        (* ClusterClient.Create *)
| EvGrow (name : string) (nodes : Z)            (* ClusterClient.Grow *)
| EvRebuild (name : string)                     (* ClusterClient.Rebuild *)
| EvDelete (name : string)                      (* ClusterClient.Delete *)
| EvGetCredentials (name : string)              (* ClusterClient.GetCredentials *)
| EvWrite (buf : string)                        (* TabWriter.Write *)
| EvFlush                                       (* TabWriter.Flush *)
| EvMkdirAll (p : string) (perm : Z)            (* os.MkdirAll *)
| EvWriteFile (p : string) (data : string) (perm : Z)  (* ioutil.WriteFile *)
| EvPrintln (s : string).                       (* fmt.Fprintln(os.Stdout, _) *)

Definition Trace : Type := list Event.

(** Go's pair of a pointer and an error: the pointer may be nil whatever
    the error is. *)
Definition ptr_err (T : Type) : Type := (option T * option error)%type.

(** [libcarina.ClusterClient]: each method answers from the history of the
    run and its arguments. *)
Record libcarina_ClusterClient : Type := {
  client_List : Trace -> list Cluster * option error;
  client_Get : Trace -> string -> ptr_err Cluster;
  client_Create : Trace -> Cluster -> ptr_err Cluster;
  client_Grow : Trace -> string -> Z -> ptr_err Cluster;
  client_Rebuild : Trace -> string -> ptr_err Cluster;
  client_Delete : Trace -> string -> ptr_err Cluster;
  client_GetCredentials : Trace -> string -> ptr_err Credentials
}.

(** [tabwriter.Writer]: [Write] and [Flush] may report an error. *)
Record Writer : Type := {
  writer_Write : Trace -> string -> option error;
  writer_Flush : Trace -> option error
}.

(** What the operating system and the Go runtime decide for [Download]:
    the outcome of [os.MkdirAll] and [ioutil.WriteFile], the order in which
    [range] visits a map, [os.Args[0]], and [sourceHelpString], which is
    defined in another file of the repository. *)
Record System : Type := {
  os_MkdirAll : Trace -> string -> Z -> option error;
  ioutil_WriteFile : Trace -> string -> string -> Z -> option error;
  range_Files : Trace -> gmap string string -> list (string * string);
  os_Args0 : string;
  sourceHelpString : string -> string -> string
}.

(** Go leaves the iteration order of a map open: [range] visits every entry
    once, in some order. *)
Definition range_visits_all (sys : System) : Prop :=
  forall (t : Trace) (m : gmap string string),
    range_Files sys t m ≡ₚ map_to_list m.

(** ** The command structs *)

Record Context : Type := {
  ClusterClient : libcarina_ClusterClient;
  TabWriter : Writer;
  Username : string;
  APIKey : string;
  Endpoint : string
}.

Record Command : Type := {
  Command_Context :> Context
}.

Record ClusterCommand : Type := {
  ClusterCommand_Command :> Command;
  ClusterName : string
}.

Record CredentialsCommand : Type := {
  CredentialsCommand_ClusterCommand :> ClusterCommand;
  Path : string
}.

Record WaitClusterCommand : Type := {
  WaitClusterCommand_ClusterCommand :> ClusterCommand;
  Wait : bool
}.

Record CreateCommand : Type := {
  CreateCommand_WaitClusterCommand :> WaitClusterCommand;
  Nodes : Z;
  AutoScale : bool
}.

Record GrowCommand : Type := {
  GrowCommand_ClusterCommand :> ClusterCommand;
  GrowNodes : Z
}.

(** ** Computations over the trace *)

Inductive Res (A : Type) : Type :=
| Returned (a : A)
| Panicked              (* nil pointer dereference *)
| OutOfFuel.            (* the polling loop is still running *)
Arguments Returned {A} a.
Arguments Panicked {A}.
Arguments OutOfFuel {A}.

Definition M (A : Type) : Type := Trace -> Res A * Trace.

Definition ret {A} (a : A) : M A := fun t => (Returned a, t).

Definition bind {A B} (m : M A) (k : A -> M B) : M B :=
  fun t =>
    match m t with
    | (Returned a, t') => k a t'
    | (Panicked, t') => (Panicked, t')
    | (OutOfFuel, t') => (OutOfFuel, t')
    end.

Notation "x <- m ;; k" := (bind m (fun x => k))
  (at level 100, m at next level, right associativity).
Notation "m ;;; k" := (bind m (fun _ => k))
  (at level 100, right associativity).

Definition panic {A} : M A := fun t => (Panicked, t).
Definition out_of_fuel {A} : M A := fun t => (OutOfFuel, t).

(** Dereferencing a pointer: nil panics. *)
Definition deref {A} (p : option A) : M A :=
  match p with
  | Some a => ret a
  | None => panic
  end.

(** An interaction: ask the outside party, then log the request. *)
Definition ask {A} (answer : Trace -> A) (e : Event) : M A :=
  fun t => (Returned (answer t), t ++ [e]).

Definition time_Sleep (d : Z) : M unit := ask (fun _ => tt) (EvSleep d).

(** ** The API client, the table writer and the system as computations *)

Definition ClusterClient_List (c : Context) : M (list Cluster * option error) :=
  ask (client_List (ClusterClient c)) EvList.
Definition ClusterClient_Get (c : Context) (name : string) : M (ptr_err Cluster) :=
  ask (fun t => client_Get (ClusterClient c) t name) (EvGet name).
Definition ClusterClient_Create (c : Context) (cl : Cluster) : M (ptr_err Cluster) :=
  ask (fun t => client_Create (ClusterClient c) t cl) (EvCreate cl).
Definition ClusterClient_Grow (c : Context) (name : string) (nodes : Z)
  : M (ptr_err Cluster) :=
  ask (fun t => client_Grow (ClusterClient c) t name nodes) (EvGrow name nodes).
Definition ClusterClient_Rebuild (c : Context) (name : string) : M (ptr_err Cluster) :=
  ask (fun t => client_Rebuild (ClusterClient c) t name) (EvRebuild name).
Definition ClusterClient_Delete (c : Context) (name : string) : M (ptr_err Cluster) :=
  ask (fun t => client_Delete (ClusterClient c) t name) (EvDelete name).
Definition ClusterClient_GetCredentials (c : Context) (name : string)
  : M (ptr_err Credentials) :=
  ask (fun t => client_GetCredentials (ClusterClient c) t name)
      (EvGetCredentials name).

Definition Write (w : Writer) (buf : string) : M (option error) :=
  ask (fun t => writer_Write w t buf) (EvWrite buf).
Definition Flush (w : Writer) : M (option error) :=
  ask (writer_Flush w) EvFlush.

Definition MkdirAll (sys : System) (p : string) (perm : Z) : M (option error) :=
  ask (fun t => os_MkdirAll sys t p perm) (EvMkdirAll p perm).
Definition WriteFile (sys : System) (p data : string) (perm : Z) : M (option error) :=
  ask (fun t => ioutil_WriteFile sys t p data perm) (EvWriteFile p data perm).
Definition Println (s : string) : M unit :=
  ask (fun _ => tt) (EvPrintln s).
(** [range] over a map: the runtime picks the order, nothing is logged. *)
Definition range_map (sys : System) (m : gmap string string)
  : M (list (string * string)) :=
  fun t => (Returned (range_Files sys t m), t).

(** ** Rendering *)

Definition clusterRow (c : Cluster) : string :=
  strings_Join [ libcarina.ClusterName c;
                 libcarina.Flavor c;
                 strconv_FormatInt (libcarina.Int64 (libcarina.Nodes c));
                 strconv_FormatBool (libcarina.AutoScale c);
                 libcarina.Status c ] tab.

Definition writeCluster (w : Writer) (cluster : option Cluster) : M (option error) :=
  c <- deref cluster ;;
  let s := clusterRow c in
  Write w (s +:+ newline).

Definition headerFields : list string :=
  [ "ClusterName"; "Flavor"; "Nodes"; "AutoScale"; "Status" ].

Definition writeClusterHeader (w : Writer) : M (option error) :=
  let s := strings_Join headerFields tab in
  Write w (s +:+ newline).

(** ** [list] *)

(** The [for _, cluster := range clusterList] loop of [List]; [Some e] is
    the early [return err]. *)
Fixpoint List_range (w : Writer) (clusterList : list Cluster) : M (option error) :=
  match clusterList with
  | [] => ret None
  | cluster :: rest =>
      err <- writeCluster w (Some cluster) ;;
      match err with
      | Some _ => ret err
      | None => List_range w rest
      end
  end.

Definition List (carina : Command) : M (option error) :=
  r <- ClusterClient_List carina ;;
  let '(clusterList, err) := r in
  match err with
  | Some _ => ret err
  | None =>
      err <- writeClusterHeader (TabWriter carina) ;;
      match err with
      | Some _ => ret err
      | None =>
          err <- List_range (TabWriter carina) clusterList ;;
          match err with
          | Some _ => ret err
          | None => Flush (TabWriter carina)
          end
      end
  end.

(** ** [get], [delete], [grow]: apply and render *)

Definition clusterOp : Type := string -> M (ptr_err Cluster).

Definition clusterApply (carina : ClusterCommand) (op : clusterOp) : M (option error) :=
  r <- op (ClusterName carina) ;;
  let '(cluster, err) := r in
  match err with
  | Some _ => ret err
  | None =>
      err <- writeCluster (TabWriter carina) cluster ;;
      match err with
      | Some _ => ret err
      | None => Flush (TabWriter carina)
      end
  end.

Definition Get (carina : ClusterCommand) : M (option error) :=
  clusterApply carina (ClusterClient_Get carina).

Definition Delete (carina : ClusterCommand) : M (option error) :=
  clusterApply carina (ClusterClient_Delete carina).

Definition Grow (carina : GrowCommand) : M (option error) :=
  clusterApply carina
    (fun clusterName => ClusterClient_Grow carina clusterName (GrowNodes carina)).

(** ** [create], [rebuild]: apply, wait, render *)

Definition startupFudgeFactor : Z := 40 * time_Second.
Definition waitBetween : Z := 10 * time_Second.

Definition StatusNew : string := "new".
Definition StatusBuilding : string := "building".
Definition StatusRebuildingSwarm : string := "rebuilding-swarm".

(** The condition of the [for] loop, on the status of the cluster. *)
Definition stillBuilding (status : string) : bool :=
  String.eqb status StatusNew
  || String.eqb status StatusBuilding
  || String.eqb status StatusRebuildingSwarm.

(** The [for] loop of [clusterApplyWait], from its condition on.  [fuel]
    bounds the number of times the condition is evaluated; the result is
    the pair [(cluster, err)] the loop leaves behind. *)
Fixpoint waitLoop (fuel : nat) (carina : WaitClusterCommand)
         (cluster : option Cluster) (err : option error)
  : M (ptr_err Cluster) :=
  match fuel with
  | O => out_of_fuel
  | S fuel' =>
      c <- deref cluster ;;
      if stillBuilding (libcarina.Status c) then
        time_Sleep waitBetween ;;;
        r <- ClusterClient_Get carina (ClusterName carina) ;;
        let '(cluster', err') := r in
        match err' with
        | Some _ => ret (cluster', err')              (* break *)
        | None => waitLoop fuel' carina cluster' err'
        end
      else ret (cluster, err)
  end.

(** The end of [clusterApplyWait], after the [if carina.Wait] block. *)
Definition applyTail (carina : WaitClusterCommand) (r : ptr_err Cluster)
  : M (option error) :=
  let '(cluster, err) := r in
  match err with
  | Some _ => ret err
  | None =>
      err <- writeCluster (TabWriter carina) cluster ;;
      match err with
      | Some _ => ret err
      | None => Flush (TabWriter carina)
      end
  end.

Definition clusterApplyWait (fuel : nat) (carina : WaitClusterCommand)
           (op : clusterOp) : M (option error) :=
  r <- op (ClusterName carina) ;;
  let '(cluster, err) := r in
  r <- (if Wait carina then
          time_Sleep startupFudgeFactor ;;;
          waitLoop fuel carina cluster err
        else ret (cluster, err)) ;;
  applyTail carina r.

Definition Rebuild (fuel : nat) (carina : WaitClusterCommand) : M (option error) :=
  clusterApplyWait fuel carina (ClusterClient_Rebuild carina).

(** The closure [Create] hands to [clusterApplyWait]. *)
Definition Create_op (carina : CreateCommand) : clusterOp :=
  fun clusterName =>
    if Nodes carina <? 1 then
      ret (None, Some (errors_New "nodes must be >= 1"))
    else
      let nodes := libcarina.Number_of_int (Nodes carina) in
      let c := {| libcarina.ClusterName := ClusterName carina;
                  libcarina.Flavor := "";
                  libcarina.Nodes := nodes;
                  libcarina.AutoScale := AutoScale carina;
                  libcarina.Status := "" |} in
      ClusterClient_Create carina c.

Definition Create (fuel : nat) (carina : CreateCommand) : M (option error) :=
  clusterApplyWait fuel carina (Create_op carina).

(** ** [credentials] *)

(** The [for fname, b := range creds.Files] loop of [writeCredentials],
    over the entries in the order [range] yields them. *)
Fixpoint writeCredentials_range (sys : System) (pth : string)
         (files : list (string * string)) : M (option error) :=
  match files with
  | [] => ret None
  | (fname, b) :: rest =>
      let p := path.Join [pth; fname] in
      err <- WriteFile sys p b perm_0600 ;;
      match err with
      | Some _ => ret err
      | None => writeCredentials_range sys pth rest
      end
  end.

Definition writeCredentials (sys : System) (w : Writer)
           (creds : option Credentials) (pth : string) : M (option error) :=
  c <- deref creds ;;
  files <- range_map sys (libcarina.Files c) ;;
  writeCredentials_range sys pth files.

(** The end of [Download], once the destination [p] exists. *)
Definition Download_write (sys : System) (carina : CredentialsCommand)
           (credentials : option Credentials) (p : string) : M (option error) :=
  err <- writeCredentials sys (TabWriter carina) credentials p ;;
  match err with
  | Some _ => ret err
  | None =>
      Println (sourceHelpString sys p (os_Args0 sys)) ;;;
      Flush (TabWriter carina)
  end.

Definition Download (sys : System) (carina : CredentialsCommand) : M (option error) :=
  r <- ClusterClient_GetCredentials carina (ClusterName carina) ;;
  let '(credentials, err) := r in
  match err with
  | Some _ => ret err
  | None =>
      let Path' := if String.eqb (Path carina) "" then ClusterName carina
                   else Path carina in
      let p := path.Clean Path' in
      err <- (if negb (String.eqb p ".") then MkdirAll sys p perm_0777
              else ret err) ;;
      match err with
      | Some _ => ret err
      | None => Download_write sys carina credentials p
      end
  end.

(** Modelled from the spec: [kingpin.MustParse], outside this repository,
    ends the process; the exit code is non-zero on any propagated error and
    zero on success. *)
Definition exitsNonZero (err : option error) : bool :=
  match err with
  | Some _ => true
  | None => false
  end.

(** ** The commands [New] registers, with their actions *)

Inductive Action : Type :=
| ActCreate (carina : CreateCommand)
| ActGet (carina : ClusterCommand)
| ActList (carina : Command)
| ActCredentials (carina : CredentialsCommand)
| ActGrow (carina : GrowCommand)
| ActRebuild (carina : WaitClusterCommand)
| ActDelete (carina : ClusterCommand).

Definition runAction (fuel : nat) (sys : System) (a : Action) : M (option error) :=
  match a with
  | ActCreate carina => Create fuel carina
  | ActGet carina => Get carina
  | ActList carina => List carina
  | ActCredentials carina => Download sys carina
  | ActGrow carina => Grow carina
  | ActRebuild carina => Rebuild fuel carina
  | ActDelete carina => Delete carina
  end.

Definition isList (a : Action) : bool :=
  match a with
  | ActList _ => true
  | _ => false
  end.

(** The three commands built on [clusterApply]: the command they extend,
    the one API call they make, and what the client answers to it. *)
Inductive ApplyAction : Type :=
| ApplyGet (carina : ClusterCommand)
| ApplyDelete (carina : ClusterCommand)
| ApplyGrow (carina : GrowCommand).

Definition applyAction (a : ApplyAction) : M (option error) :=
  match a with
  | ApplyGet carina => Get carina
  | ApplyDelete carina => Delete carina
  | ApplyGrow carina => Grow carina
  end.

Definition applyCommand (a : ApplyAction) : ClusterCommand :=
  match a with
  | ApplyGet carina => carina
  | ApplyDelete carina => carina
  | ApplyGrow carina => carina
  end.

Definition applyCall (a : ApplyAction) : Event :=
  match a with
  | ApplyGet carina => EvGet (ClusterName carina)
  | ApplyDelete carina => EvDelete (ClusterName carina)
  | ApplyGrow carina => EvGrow (ClusterName carina) (GrowNodes carina)
  end.

Definition applyAnswer (a : ApplyAction) (t : Trace) : ptr_err Cluster :=
  match a with
  | ApplyGet carina => client_Get (ClusterClient carina) t (ClusterName carina)
  | ApplyDelete carina => client_Delete (ClusterClient carina) t (ClusterName carina)
  | ApplyGrow carina =>
      client_Grow (ClusterClient carina) t (ClusterName carina) (GrowNodes carina)
  end.

(** ** Reading a trace *)

Definition isApiCall (e : Event) : bool :=
  match e with
  | EvList | EvGet _ | EvCreate _ | EvGrow _ _ | EvRebuild _ | EvDelete _
  | EvGetCredentials _ => true
  | _ => false
  end.


Definition isGet (e : Event) : bool :=
  match e with
  | EvGet _ => true
  | _ => false
  end.

Definition isOutput (e : Event) : bool :=
  match e with
  | EvWrite _ | EvFlush | EvPrintln _ => true
  | _ => false
  end.

(** The header line as the spec has it: the five column names, separated by
    horizontal tabs (byte 9) and ended by a line feed (byte 10). *)
Definition headerRow : string :=
  "ClusterName" +:+ String "009" ("Flavor" +:+ String "009" ("Nodes"
    +:+ String "009" ("AutoScale" +:+ String "009" ("Status"
    +:+ String "010" "")))).

(** A computation only appends events, and every event it appends
    satisfies [P]. *)
Definition emits {A} (P : Event -> Prop) (m : M A) : Prop :=
  forall t, exists evs, snd (m t) = t ++ evs /\ Forall P evs.

(** Does a string hold a byte that satisfies [p]? *)
Fixpoint mentions (p : ascii -> bool) (s : string) : bool :=
  match s with
  | EmptyString => false
  | String c s' => p c || mentions p s'
  end.

(** A decimal digit or the minus sign. *)
Definition isNumeric (c : ascii) : bool :=
  let n := N_of_ascii c in
  ((48 <=? n)%N && (n <=? 57)%N) || (n =? 45)%N.

(** An event other than the write of the header row. *)
Definition notHeader (e : Event) : Prop := e <> EvWrite headerRow.

(** [n] rounds of the polling loop: sleep the poll interval, re-fetch. *)
Definition polls (name : string) (n : nat) : Trace :=
  concat (replicate n [EvSleep waitBetween; EvGet name]).

Definition fetched (c : Cluster) : ptr_err Cluster := (Some c, None).

(** The backend answers the successive re-fetches of the polling loop,
    started at trace [t], with [rs], in this order. *)
Fixpoint getsAnswer (carina : WaitClusterCommand) (t : Trace)
         (rs : list (ptr_err Cluster)) : Prop :=
  match rs with
  | [] => True
  | r :: rs' =>
      client_Get (ClusterClient carina) (t ++ [EvSleep waitBetween])
                 (ClusterName carina) = r
      /\ getsAnswer carina
           (t ++ [EvSleep waitBetween; EvGet (ClusterName carina)]) rs'
  end.

(** Every snapshot of [c :: cs] that is followed by another one is still
    building. *)
Fixpoint buildingChain (c : Cluster) (cs : list Cluster) : Prop :=
  match cs with
  | [] => True
  | c' :: cs' =>
      stillBuilding (libcarina.Status c) = true /\ buildingChain c' cs'
  end.

(** The file written for one entry of a credentials bundle. *)
Definition fileEvent (dir : string) (entry : string * string) : Event :=
  EvWriteFile (path.Join [dir; entry.1]) entry.2 384.

(** The first [k] files of [files] are written without error, each at the
    trace its predecessors leave, starting from [t]. *)
Definition writesOk (sys : System) (dir : string) (t : Trace)
           (files : list (string * string)) (k : nat) : Prop :=
  forall i entry,
    (i < k)%nat ->
    files !! i = Some entry ->
    ioutil_WriteFile sys (t ++ map (fileEvent dir) (take i files))
                     (path.Join [dir; entry.1]) entry.2 384 = None.

(** A name of one path element: no slash, and not empty, "." or "..". *)
Definition plainName (s : string) : bool :=
  negb (mentions (fun c => Ascii.eqb c slash) s)
  && negb (String.eqb s "") && negb (String.eqb s ".")
  && negb (String.eqb s "..").

(** The destination [Download] resolves for a command. *)
Definition destination (carina : CredentialsCommand) : string :=
  path.Clean (if String.eqb (Path carina) "" then ClusterName carina
              else Path carina).

(** ** Concrete backends, sinks and systems *)

Definition mkCluster (name flavor : string) (nodes : Z) (autoscale : bool)
           (status : string) : Cluster :=
  {| libcarina.ClusterName := name;
     libcarina.Flavor := flavor;
     libcarina.Nodes := nodes;
     libcarina.AutoScale := autoscale;
     libcarina.Status := status |}.

Definition noAnswer : ptr_err Cluster :=
  (None, Some (errorString "no such cluster")).

Definition countGets (t : Trace) : nat := length (List.filter isGet t).

(** A backend that answers every mutating call with [first], the [k]-th
    re-fetch with the [k]-th entry of [gets], and hands out [creds]. *)
Definition scriptedClient (first : ptr_err Cluster) (gets : list (ptr_err Cluster))
           (creds : ptr_err Credentials) : libcarina_ClusterClient :=
  {| client_List := fun _ => ([], None);
     client_Get := fun t _ => nth (countGets t) gets noAnswer;
     client_Create := fun _ _ => first;
     client_Grow := fun _ _ _ => first;
     client_Rebuild := fun _ _ => first;
     client_Delete := fun _ _ => first;
     client_GetCredentials := fun _ _ => creds |}.

Definition okWriter : Writer :=
  {| writer_Write := fun _ _ => None; writer_Flush := fun _ => None |}.

(** A sink whose [Write] succeeds and whose [Flush] fails. *)
Definition brokenPipe : error := errorString "write /dev/stdout: broken pipe".
Definition flushFails : Writer :=
  {| writer_Write := fun _ _ => None; writer_Flush := fun _ => Some brokenPipe |}.

Definition mkContext (client : libcarina_ClusterClient) (w : Writer) : Context :=
  {| ClusterClient := client; TabWriter := w;
     Username := "user"; APIKey := "key"; Endpoint := "https://example.invalid" |}.

Definition mkClusterCommand (client : libcarina_ClusterClient) (w : Writer)
           (name : string) : ClusterCommand :=
  {| ClusterCommand_Command := {| Command_Context := mkContext client w |};
     ClusterName := name |}.

Definition mkWait (client : libcarina_ClusterClient) (w : Writer)
           (name : string) (wait : bool) : WaitClusterCommand :=
  {| WaitClusterCommand_ClusterCommand := mkClusterCommand client w name;
     Wait := wait |}.

Definition mkCreate (client : libcarina_ClusterClient) (w : Writer)
           (name : string) (wait : bool) (nodes : Z) (autoscale : bool)
  : CreateCommand :=
  {| CreateCommand_WaitClusterCommand := mkWait client w name wait;
     Nodes := nodes; AutoScale := autoscale |}.

Definition mkGrow (client : libcarina_ClusterClient) (w : Writer)
           (name : string) (nodes : Z) : GrowCommand :=
  {| GrowCommand_ClusterCommand := mkClusterCommand client w name;
     GrowNodes := nodes |}.

Definition mkCredentials (client : libcarina_ClusterClient) (w : Writer)
           (name pth : string) : CredentialsCommand :=
  {| CredentialsCommand_ClusterCommand := mkClusterCommand client w name;
     Path := pth |}.

(** A system where every directory and file operation succeeds and [range]
    visits a map in the order of its list of entries. *)
Definition okSystem : System :=
  {| os_MkdirAll := fun _ _ _ => None;
     ioutil_WriteFile := fun _ _ _ _ => None;
     range_Files := fun _ m => map_to_list m;
     os_Args0 := "carina";
     sourceHelpString := fun p _ => "source " +:+ p +:+ "/docker.env" |}.

Definition apiDown : error := errorString "503 Service Unavailable".
Definition failed : ptr_err Cluster := (None, Some apiDown).

Definition oneFile : Credentials :=
  {| libcarina.Files := {[ "ca.pem" := "CERT" ]} |}.

(** ** What the spec says is written and slept *)

(** The row of a cluster as the spec has it: name, flavor, node count in
    decimal, autoscale flag and status, in this order, separated by
    horizontal tabs (byte 9) and ended by a line feed (byte 10). *)
Definition tabSeparatedRow (c : Cluster) : string :=
  libcarina.ClusterName c +:+ String "009"
    (libcarina.Flavor c +:+ String "009"
       (strconv_FormatInt (libcarina.Nodes c) +:+ String "009"
          (strconv_FormatBool (libcarina.AutoScale c) +:+ String "009"
             (libcarina.Status c +:+ String "010" "")))).

(** [n] poll rounds as the spec has them: a sleep of 10 seconds, in
    nanoseconds, followed by a re-fetch of the cluster. *)
Definition tenSecondPolls (name : string) (n : nat) : Trace :=
  concat (replicate n [EvSleep (10 * 1000000000); EvGet name]).


(** ** Reading a trace, continued *)

(** The write of the row of a cluster. *)
Definition rowEvent (c : Cluster) : Event := EvWrite (tabSeparatedRow c).

(** The first [k] rows of [clusterList] are accepted by the sink, each at
    the trace its predecessors leave, starting from [t]. *)
Definition rowsOk (w : Writer) (t : Trace) (clusterList : list Cluster)
           (k : nat) : Prop :=
  forall i c,
    (i < k)%nat ->
    clusterList !! i = Some c ->
    writer_Write w (t ++ map rowEvent (take i clusterList))
                 (tabSeparatedRow c) = None.

(** What a command adds after its first call: with [--wait] the grace
    sleep of 40 seconds and at most [fuel] rounds of the polling loop, then
    nothing, the write of one row, or that write and the flush. *)
Definition waitShape (name : string) (wait : bool) (fuel : nat) (evs : Trace)
  : Prop :=
  exists n tail,
    evs = (if wait then EvSleep (40 * 1000000000) :: tenSecondPolls name n
           else []) ++ tail
    /\ (n <= fuel)%nat
    /\ (wait = false -> n = 0%nat)
    /\ (tail = []
        \/ exists row, tail = [EvWrite row] \/ tail = [EvWrite row; EvFlush]).

(** The request [create] sends. *)
Definition createRequest (carina : CreateCommand) : Cluster :=
  {| libcarina.ClusterName := ClusterName carina;
     libcarina.Flavor := "";
     libcarina.Nodes := Nodes carina;
     libcarina.AutoScale := AutoScale carina;
     libcarina.Status := "" |}.

(** The API calls a command may make: its own, on its own cluster, and for
    the commands that wait the re-fetch of that cluster. *)
Definition ownCall (a : Action) (e : Event) : Prop :=
  match a, e with
  | ActCreate carina, EvCreate c => c = createRequest carina
  | ActCreate carina, EvGet name => name = ClusterName carina
  | ActGet carina, EvGet name => name = ClusterName carina
  | ActList _, EvList => True
  | ActCredentials carina, EvGetCredentials name => name = ClusterName carina
  | ActGrow carina, EvGrow name nodes =>
      name = ClusterName carina /\ nodes = GrowNodes carina
  | ActRebuild carina, EvRebuild name => name = ClusterName carina
  | ActRebuild carina, EvGet name => name = ClusterName carina
  | ActDelete carina, EvDelete name => name = ClusterName carina
  | _, _ => False
  end.

(** What a command may do besides API calls: only [create] and [rebuild]
    sleep, for 40 or 10 seconds (in nanoseconds); only [credentials]
    touches the file system, with mode 0777 (511) for the directory and
    0600 (384) for a file, or prints; and [credentials] writes no row. *)
Definition ownEffect (a : Action) (e : Event) : Prop :=
  match e with
  | EvSleep d =>
      match a with
      | ActCreate _ | ActRebuild _ =>
          d = 40 * 1000000000 \/ d = 10 * 1000000000
      | _ => False
      end
  | EvWrite _ =>
      match a with
      | ActCredentials _ => False
      | _ => True
      end
  | EvFlush => True
  | EvMkdirAll _ perm =>
      match a with
      | ActCredentials _ => perm = 511
      | _ => False
      end
  | EvWriteFile _ _ perm =>
      match a with
      | ActCredentials _ => perm = 384
      | _ => False
      end
  | EvPrintln _ =>
      match a with
      | ActCredentials _ => True
      | _ => False
      end
  | _ => ownCall a e
  end.

(** How often a byte occurs in a string. *)
Fixpoint countByte (b : ascii) (s : string) : nat :=
  match s with
  | EmptyString => 0
  | String c s' => (if Ascii.eqb c b then 1 else 0) + countByte b s'
  end.

Definition tabByte : ascii := ascii_of_nat 9.

(** A backend whose [Get] always answers with the same snapshot. *)
Definition stuckClient (c : Cluster) : libcarina_ClusterClient :=
  {| client_List := fun _ => ([c], None);
     client_Get := fun _ _ => fetched c;
     client_Create := fun _ _ => fetched c;
     client_Grow := fun _ _ _ => fetched c;
     client_Rebuild := fun _ _ => fetched c;
     client_Delete := fun _ _ => fetched c;
     client_GetCredentials := fun _ _ => (None, Some apiDown) |}.

(** A backend that lists [clusterList]. *)
Definition listingClient (clusterList : list Cluster) (err : option error)
  : libcarina_ClusterClient :=
  {| client_List := fun _ => (clusterList, err);
     client_Get := fun _ _ => noAnswer;
     client_Create := fun _ _ => noAnswer;
     client_Grow := fun _ _ _ => noAnswer;
     client_Rebuild := fun _ _ => noAnswer;
     client_Delete := fun _ _ => noAnswer;
     client_GetCredentials := fun _ _ => (None, Some apiDown) |}.

(** A sink that accepts the header and refuses every other write. *)
Definition diskFull : error := errorString "no space left on device".
Definition headerOnly : Writer :=
  {| writer_Write := fun _ buf => if String.eqb buf headerRow then None
                                  else Some diskFull;
     writer_Flush := fun _ => None |}.

Definition twoFiles : Credentials :=
  {| libcarina.Files := {[ "ca.pem" := "CERT"; "docker.env" := "ENV" ]} |}.

Definition noFiles : Credentials := {| libcarina.Files := ∅ |}.

Definition mkCommand (client : libcarina_ClusterClient) (w : Writer) : Command :=
  {| Command_Context := mkContext client w |}.

Definition aCluster (name status : string) : Cluster :=
  mkCluster name "container1-4G" 1 false status.

(** The time a trace spends asleep, in nanoseconds. *)
Fixpoint totalSleep (t : Trace) : Z :=
  match t with
  | [] => 0
  | EvSleep d :: t' => d + totalSleep t'
  | _ :: t' => totalSleep t'
  end.

(** * Properties *)

(** ** The library functions at some inputs *)

Example Clean_plain : path.Clean "foo" = "foo".
Proof. reflexivity. Qed.
Example Clean_trailing : path.Clean "foo/" = "foo".
Proof. reflexivity. Qed.
Example Clean_dotdot : path.Clean "a/../b" = "b".
Proof. reflexivity. Qed.
Example Clean_rooted : path.Clean "/../a//b/./c/.." = "/a/b".
Proof. reflexivity. Qed.
Example Clean_up : path.Clean "a/b/../../../x" = "../x".
Proof. reflexivity. Qed.
Example Clean_empty : path.Clean "" = ".".
Proof. reflexivity. Qed.
Example Clean_doc_1 : path.Clean "a//c" = "a/c".
Proof. reflexivity. Qed.
Example Clean_doc_2 : path.Clean "a/c/." = "a/c".
Proof. reflexivity. Qed.
Example Clean_doc_3 : path.Clean "a/c/b/.." = "a/c".
Proof. reflexivity. Qed.
Example Clean_doc_4 : path.Clean "/../a/c" = "/a/c".
Proof. reflexivity. Qed.
Example Clean_doc_5 : path.Clean "/../a/b/../././/c" = "/a/c".
Proof. reflexivity. Qed.
Example Clean_root : path.Clean "//" = "/".
Proof. reflexivity. Qed.
Example Clean_parent : path.Clean "a/../.." = "..".
Proof. reflexivity. Qed.
Example Clean_parents : path.Clean "../../a" = "../../a".
Proof. reflexivity. Qed.
Example Clean_self : path.Clean "a/.." = ".".
Proof. reflexivity. Qed.
Example Join_empty : path.Join ["foo"; ""] = "foo".
Proof. reflexivity. Qed.
Example Join_two : path.Join ["foo"; "ca.pem"] = "foo/ca.pem".
Proof. reflexivity. Qed.
Example FormatInt_3 : strconv_FormatInt 3 = "3".
Proof. reflexivity. Qed.
Example FormatInt_neg : strconv_FormatInt (-120) = "-120".
Proof. reflexivity. Qed.
Example FormatInt_int64_max :
  strconv_FormatInt 9223372036854775807 = "9223372036854775807".
Proof. reflexivity. Qed.
Example FormatInt_big : strconv_FormatInt 1000 = "1000".
Proof. reflexivity. Qed.

(** ** Running a computation *)

Ltac run :=
  unfold clusterApplyWait, clusterApply, applyTail, writeCluster,
    writeClusterHeader, Write, Flush, time_Sleep, ClusterClient_Get,
    ClusterClient_Create, ClusterClient_Grow, ClusterClient_Rebuild,
    ClusterClient_Delete, ClusterClient_List, ClusterClient_GetCredentials,
    MkdirAll, WriteFile, Println, range_map, deref, bind, ask, ret, panic,
    out_of_fuel; simpl.

Lemma snoc2 (t : Trace) (a b : Event) : (t ++ [a]) ++ [b] = t ++ [a; b].
Proof. now rewrite <- app_assoc. Qed.

Lemma append_assoc (a b c : string) : (a +:+ b) +:+ c = a +:+ b +:+ c.
Proof.
  induction a as [|x a IH]; [reflexivity|].
  change (String x ((a +:+ b) +:+ c) = String x (a +:+ b +:+ c)).
  now rewrite IH.
Qed.

(** The row of a cluster, field by field. *)
Lemma clusterRow_fields (c : Cluster) :
  clusterRow c +:+ newline
  = libcarina.ClusterName c +:+ tab +:+ libcarina.Flavor c +:+ tab
    +:+ strconv_FormatInt (libcarina.Nodes c) +:+ tab
    +:+ strconv_FormatBool (libcarina.AutoScale c) +:+ tab
    +:+ libcarina.Status c +:+ newline.
Proof.
  unfold clusterRow, libcarina.Int64. simpl strings_Join.
  generalize tab newline. intros s1 s2.
  now rewrite !append_assoc.
Qed.

(** The row [writeCluster] builds is the row the spec describes. *)
Lemma row_spelled (c : Cluster) : tabSeparatedRow c = clusterRow c +:+ newline.
Proof. now rewrite clusterRow_fields. Qed.

Lemma tenSecondPolls_eq (name : string) (n : nat) :
  tenSecondPolls name n = polls name n.
Proof. reflexivity. Qed.

Lemma stillBuilding_spec (status : string) :
  stillBuilding status = true <->
  status = "new" \/ status = "building" \/ status = "rebuilding-swarm".
Proof.
  unfold stillBuilding, StatusNew, StatusBuilding, StatusRebuildingSwarm.
  rewrite !orb_true_iff, !String.eqb_eq. tauto.
Qed.

Lemma last_cons {A} (l : list A) : forall a d d',
  List.last (a :: l) d = List.last (a :: l) d'.
Proof.
  induction l as [|b l IH]; intros a d d'; [reflexivity|].
  change (List.last (b :: l) d = List.last (b :: l) d'). apply IH.
Qed.

Lemma polls_S (name : string) n :
  polls name (S n) = [EvSleep waitBetween; EvGet name] ++ polls name n.
Proof. reflexivity. Qed.

Lemma polls_snoc (name : string) n :
  polls name (S n) = polls name n ++ [EvSleep waitBetween; EvGet name].
Proof.
  induction n as [|n IH]; [reflexivity|].
  rewrite polls_S, IH at 1. rewrite polls_S. now rewrite app_assoc.
Qed.

(** ** One evaluation of the loop condition *)

Section WaitLoop.

Variable carina : WaitClusterCommand.
Local Abbreviation name := (ClusterName carina).
Local Abbreviation client := (ClusterClient carina).

Lemma waitLoop_nil fuel err t :
  waitLoop (S fuel) carina None err t = (Panicked, t).
Proof. reflexivity. Qed.

Lemma waitLoop_exit fuel c err t :
  stillBuilding (libcarina.Status c) = false ->
  waitLoop (S fuel) carina (Some c) err t = (Returned (Some c, err), t).
Proof. intros H. simpl. run. now rewrite H. Qed.

Lemma waitLoop_continue fuel c err t cluster' :
  stillBuilding (libcarina.Status c) = true ->
  client_Get client (t ++ [EvSleep waitBetween]) name = (cluster', None) ->
  waitLoop (S fuel) carina (Some c) err t
  = waitLoop fuel carina cluster' None (t ++ [EvSleep waitBetween; EvGet name]).
Proof.
  intros H G. simpl. run. rewrite H. simpl.
  rewrite G, snoc2. reflexivity.
Qed.

Lemma waitLoop_break fuel c err t cluster' e :
  stillBuilding (libcarina.Status c) = true ->
  client_Get client (t ++ [EvSleep waitBetween]) name = (cluster', Some e) ->
  waitLoop (S fuel) carina (Some c) err t
  = (Returned (cluster', Some e), t ++ [EvSleep waitBetween; EvGet name]).
Proof.
  intros H G. simpl. run. rewrite H. simpl.
  rewrite G, snoc2. reflexivity.
Qed.

(** A run of successful re-fetches [cs], each observed while the previous
    snapshot is still building, brings the loop to the last of them. *)
Lemma waitLoop_fetches cs : forall c err t fuel,
  buildingChain c cs ->
  getsAnswer carina t (map fetched cs) ->
  waitLoop (length cs + fuel) carina (Some c) err t
  = waitLoop fuel carina (Some (List.last cs c))
             (match cs with [] => err | _ => None end)
             (t ++ polls name (length cs)).
Proof.
  induction cs as [|c1 cs IH]; intros c err t fuel Hc Hg.
  - simpl. now rewrite app_nil_r.
  - destruct Hc as [Hb Hc]. destruct Hg as [Hg1 Hg].
    change (length (c1 :: cs) + fuel)%nat with (S (length cs + fuel)).
    rewrite (waitLoop_continue _ _ _ _ (Some c1) Hb Hg1).
    rewrite (IH c1 None _ fuel Hc Hg).
    change (length (c1 :: cs)) with (S (length cs)).
    rewrite polls_S, <- app_assoc. simpl app.
    destruct cs as [|c2 cs]; [reflexivity|].
    now rewrite (last_cons (c2 :: cs) c1 c c1).
Qed.

End WaitLoop.

Lemma countGets_polls name n : countGets (polls name n) = n.
Proof.
  induction n as [|n IH]; [reflexivity|].
  rewrite polls_S. unfold countGets in *. simpl. now rewrite IH.
Qed.

Lemma polls_no_output name n :
  Forall (fun ev => isOutput ev = false) (polls name n).
Proof.
  induction n as [|n IH]; [constructor|].
  rewrite polls_S. simpl. constructor; [reflexivity|].
  constructor; [reflexivity|exact IH].
Qed.

Lemma getsAnswer_app carina rs : forall t rs',
  getsAnswer carina t (rs ++ rs') <->
  getsAnswer carina t rs
  /\ getsAnswer carina (t ++ polls (ClusterName carina) (length rs)) rs'.
Proof.
  induction rs as [|r rs IH]; intros t rs'; simpl.
  - rewrite app_nil_r. tauto.
  - rewrite IH. rewrite polls_S, <- app_assoc. simpl. tauto.
Qed.

(** ** What a computation adds to the trace *)

Section Emits.

Variable P : Event -> Prop.

Lemma emits_ret {A} (a : A) : emits P (ret a).
Proof. intros t. exists []. simpl. now rewrite app_nil_r. Qed.

Lemma emits_panic {A} : emits P (@panic A).
Proof. intros t. exists []. simpl. now rewrite app_nil_r. Qed.

Lemma emits_out_of_fuel {A} : emits P (@out_of_fuel A).
Proof. intros t. exists []. simpl. now rewrite app_nil_r. Qed.

Lemma emits_deref {A} (p : option A) : emits P (deref p).
Proof. destruct p; [apply emits_ret | apply emits_panic]. Qed.

Lemma emits_ask {A} (answer : Trace -> A) (e : Event) :
  P e -> emits P (ask answer e).
Proof. intros He t. exists [e]. simpl. auto. Qed.

Lemma emits_range_map sys m : emits P (range_map sys m).
Proof. intros t. exists []. simpl. now rewrite app_nil_r. Qed.

Lemma emits_bind {A B} (m : M A) (k : A -> M B) :
  emits P m -> (forall a, emits P (k a)) -> emits P (bind m k).
Proof.
  intros Hm Hk t. unfold bind.
  destruct (Hm t) as (evs1 & E1 & F1).
  destruct (m t) as [[a| |] t1]; simpl in E1; subst t1.
  - destruct (Hk a (t ++ evs1)) as (evs2 & E2 & F2).
    exists (evs1 ++ evs2). rewrite E2, app_assoc. split; [reflexivity|].
    apply Forall_app. auto.
  - exists evs1. auto.
  - exists evs1. auto.
Qed.

Lemma emits_waitLoop fuel : forall (carina : WaitClusterCommand) cluster err,
  P (EvSleep waitBetween) ->
  P (EvGet (ClusterName carina)) ->
  emits P (waitLoop fuel carina cluster err).
Proof.
  induction fuel as [|fuel IH]; intros carina cluster err Hs Hg.
  - apply emits_out_of_fuel.
  - simpl. apply emits_bind; [apply emits_deref|]. intros c.
    destruct (stillBuilding (libcarina.Status c)); [|apply emits_ret].
    apply emits_bind; [now apply emits_ask|]. intros _.
    apply emits_bind; [now apply emits_ask|]. intros [cluster' [e|]].
    + apply emits_ret.
    + now apply IH.
Qed.

End Emits.

Ltac emits_step :=
  match goal with
  | |- emits _ (bind _ _) => apply emits_bind; [|intros ?]
  | |- emits _ (ret _) => apply emits_ret
  | |- emits _ panic => apply emits_panic
  | |- emits _ (deref _) => apply emits_deref
  | |- emits _ (range_map _ _) => apply emits_range_map
  | |- emits _ (ask _ _) => apply emits_ask
  | |- emits _ (waitLoop _ _ _ _) => apply emits_waitLoop
  | |- emits _ (match ?x with _ => _ end) => destruct x
  end.

Ltac emits_run :=
  unfold clusterApplyWait, clusterApply, applyTail, writeCluster,
    writeClusterHeader, Write, Flush, time_Sleep, ClusterClient_Get,
    ClusterClient_Create, ClusterClient_Grow, ClusterClient_Rebuild,
    ClusterClient_Delete, ClusterClient_List, ClusterClient_GetCredentials,
    MkdirAll, WriteFile, Println;
  repeat emits_step.

(** ** The end of [clusterApplyWait] *)

(** With a snapshot and no error, the tail writes the row of the snapshot;
    the flush follows when the sink accepts the row, and its result is the
    result of the command. *)
Lemma applyTail_renders (carina : WaitClusterCommand) (c : Cluster) (t : Trace) :
  let w := TabWriter carina in
  let row := clusterRow c +:+ newline in
  exists res flushed,
    applyTail carina (Some c, None) t = (res, t ++ EvWrite row :: flushed)
    /\ (writer_Write w t row = None ->
        flushed = [EvFlush]
        /\ res = Returned (writer_Flush w (t ++ [EvWrite row])))
    /\ (forall e, writer_Write w t row = Some e ->
        flushed = [] /\ res = Returned (Some e)).
Proof.
  intros w row. run. fold row w.
  destruct (writer_Write w t row) as [e|] eqn:Hw.
  - exists (Returned (Some e)), []. split; [reflexivity|]. split.
    + discriminate.
    + intros e' He'. inversion He'. auto.
  - exists (Returned (writer_Flush w (t ++ [EvWrite row]))), [EvFlush].
    rewrite snoc2. split; [reflexivity|]. split.
    + auto.
    + discriminate.
Qed.

(** The same, with the row spelled out. *)
Lemma applyTail_writes_row (carina : WaitClusterCommand) (c : Cluster) (t : Trace) :
  let w := TabWriter carina in
  let row := tabSeparatedRow c in
  exists res flushed,
    applyTail carina (Some c, None) t = (res, t ++ EvWrite row :: flushed)
    /\ (writer_Write w t row = None ->
        flushed = [EvFlush]
        /\ res = Returned (writer_Flush w (t ++ [EvWrite row])))
    /\ (forall e, writer_Write w t row = Some e ->
        flushed = [] /\ res = Returned (Some e)).
Proof. cbv zeta. rewrite row_spelled. apply applyTail_renders. Qed.

Lemma applyTail_error (carina : WaitClusterCommand) cluster e (t : Trace) :
  applyTail carina (cluster, Some e) t = (Returned (Some e), t).
Proof. reflexivity. Qed.

(** ** What holds of [clusterApplyWait] without [--wait] *)

Lemma clusterApplyWait_nowait fuel (carina : WaitClusterCommand) (op : clusterOp)
      t0 t1 r :
  Wait carina = false ->
  op (ClusterName carina) t0 = (Returned r, t1) ->
  clusterApplyWait fuel carina op t0 = applyTail carina r t1.
Proof.
  intros Hw Hop. unfold clusterApplyWait, bind at 1. rewrite Hop.
  destruct r as [cluster err]. rewrite Hw. reflexivity.
Qed.

(** Without [--wait] an error of the first call is returned at once. *)
Lemma clusterApplyWait_nowait_error fuel (carina : WaitClusterCommand) (op : clusterOp)
      t0 t1 cluster e :
  Wait carina = false ->
  op (ClusterName carina) t0 = (Returned (cluster, Some e), t1) ->
  clusterApplyWait fuel carina op t0 = (Returned (Some e), t1).
Proof.
  intros Hw Hop. now rewrite (clusterApplyWait_nowait _ _ _ _ _ _ Hw Hop).
Qed.

Lemma clusterApplyWait_wait fuel (carina : WaitClusterCommand) (op : clusterOp)
      t0 t1 cluster err :
  Wait carina = true ->
  op (ClusterName carina) t0 = (Returned (cluster, err), t1) ->
  clusterApplyWait fuel carina op t0
  = bind (waitLoop fuel carina cluster err) (applyTail carina)
         (t1 ++ [EvSleep startupFudgeFactor]).
Proof.
  intros Hw Hop. unfold clusterApplyWait, bind at 1. rewrite Hop, Hw.
  reflexivity.
Qed.

(** Without [--wait], [create] answers a node count below one with the
    validation error, and nothing has happened. *)
Lemma Create_rejects_without_wait fuel (carina : CreateCommand) t :
  Wait carina = false ->
  Nodes carina < 1 ->
  Create fuel carina t = (Returned (Some (errorString "nodes must be >= 1")), t).
Proof.
  intros Hw Hn. unfold Create.
  apply clusterApplyWait_nowait_error with (cluster := None); [exact Hw|].
  unfold Create_op. apply Z.ltb_lt in Hn. now rewrite Hn.
Qed.

(** ** The claims on [clusterApplyWait] *)

(** C1 (the code departs from it). A transport error of the initial call is
    to be returned with no sleep and no re-fetch, whatever [--wait] says.
    With [--wait], [rebuild] against a backend that answers [nil] and an
    error sleeps the 40 seconds of [startupFudgeFactor] and then panics on
    [cluster.Status]: the error is never returned.  Whatever pointer comes
    with the error, the sleep is taken before the error is looked at.
    Without [--wait] the error is returned at once. *)
Theorem C1_wait_sleeps_then_panics_on_error :
  forall (w : Writer) (gets : list (ptr_err Cluster)) (creds : ptr_err Credentials)
         (name : string) (fuel : nat) (t : Trace) (e : error),
    let backend first := scriptedClient first gets creds in
    Rebuild (S fuel) (mkWait (backend (None, Some e)) w name true) t
    = (Panicked, t ++ [EvRebuild name; EvSleep (40 * 1000000000)])
    /\ (forall cluster,
          exists rest,
            snd (Rebuild fuel (mkWait (backend (cluster, Some e)) w name true) t)
            = t ++ EvRebuild name :: EvSleep (40 * 1000000000) :: rest)
    /\ (forall cluster,
          Rebuild fuel (mkWait (backend (cluster, Some e)) w name false) t
          = (Returned (Some e), t ++ [EvRebuild name])).
Proof.
  intros w gets creds name fuel t e backend.
  change (40 * 1000000000) with startupFudgeFactor. split; [|split].
  - unfold Rebuild. run. now rewrite snoc2.
  - intros cluster. unfold Rebuild.
    set (carina := mkWait (backend (cluster, Some e)) w name true).
    rewrite (clusterApplyWait_wait fuel carina _ t (t ++ [EvRebuild name])
               cluster (Some e) eq_refl eq_refl).
    assert (He : emits (fun _ => True)
                   (bind (waitLoop fuel carina cluster (Some e)) (applyTail carina))).
    { apply emits_bind; [now apply emits_waitLoop|].
      intros [cl [e'|]]; emits_run; auto. }
    destruct (He ((t ++ [EvRebuild name]) ++ [EvSleep startupFudgeFactor]))
      as (rest & E & _).
    exists rest. rewrite E. now rewrite <- !app_assoc.
  - intros cluster. unfold Rebuild.
    now apply clusterApplyWait_nowait_error with (cluster := cluster).
Qed.

(** C2, as the code has it.  At a snapshot the loop observes, another
    round (a sleep of 10 seconds, then a re-fetch) is run exactly when the
    status is "new", "building" or "rebuilding-swarm"; at any other status
    the loop ends with this snapshot.  The command then writes the row of
    the snapshot, its fields separated by tabs, when no error came with
    it; a snapshot that came with an error is not written, the error is
    returned. *)
Theorem C2_polls_iff_still_building :
  forall (carina : WaitClusterCommand) (fuel : nat) (c : Cluster)
         (err : option error) (t : Trace),
    let status := libcarina.Status c in
    let name := ClusterName carina in
    let known := status = "new" \/ status = "building"
                 \/ status = "rebuilding-swarm" in
    let loop := waitLoop (S fuel) carina (Some c) err in
    (stillBuilding status = true <-> known)
    /\ ((exists rest, snd (loop t)
                      = t ++ [EvSleep (10 * 1000000000); EvGet name] ++ rest)
        <-> known)
    /\ (~ known -> loop t = (Returned (Some c, err), t))
    /\ (~ known ->
        err = None ->
        exists res rest,
          bind loop (applyTail carina) t
          = (res, t ++ EvWrite (tabSeparatedRow c) :: rest))
    /\ (~ known ->
        forall e,
          err = Some e ->
          bind loop (applyTail carina) t = (Returned (Some e), t)).
Proof.
  intros carina fuel c err t status name known loop. subst name loop.
  change (10 * 1000000000) with waitBetween.
  assert (Hspec : stillBuilding status = true <-> known)
    by apply stillBuilding_spec.
  assert (Hexit : ~ known -> stillBuilding status = false).
  { intros Hn. destruct (stillBuilding status); [|reflexivity].
    exfalso. tauto. }
  split; [exact Hspec|]. split; [|split; [|split]].
  - split.
    + intros [rest Hrest]. apply Hspec.
      destruct (stillBuilding status) eqn:Hb; [reflexivity|].
      rewrite (waitLoop_exit carina fuel c err t Hb) in Hrest. simpl in Hrest.
      apply (f_equal (@length Event)) in Hrest.
      rewrite length_app in Hrest. simpl in Hrest. lia.
    + intros Hk. apply Hspec in Hk.
      destruct (client_Get (ClusterClient carina) (t ++ [EvSleep waitBetween])
                          (ClusterName carina))
        as [cluster' [e|]] eqn:Hg.
      * exists []. now rewrite (waitLoop_break carina fuel c err t cluster' e Hk Hg).
      * rewrite (waitLoop_continue carina fuel c err t cluster' Hk Hg).
        destruct (emits_waitLoop (fun _ => True) fuel carina cluster' None I I
                    (t ++ [EvSleep waitBetween; EvGet (ClusterName carina)]))
          as (evs & E & _).
        exists evs. rewrite E. now rewrite <- app_assoc.
  - intros Hn. now apply waitLoop_exit, Hexit.
  - intros Hn ->. unfold bind.
    rewrite (waitLoop_exit carina fuel c None t (Hexit Hn)).
    destruct (applyTail_writes_row carina c t) as (res & flushed & E & _).
    exists res, flushed. exact E.
  - intros Hn e ->. unfold bind.
    now rewrite (waitLoop_exit carina fuel c (Some e) t (Hexit Hn)).
Qed.

(** C3. With [--wait] and a successful first call, the command sleeps 40
    seconds (in nanoseconds, as [time.Duration] counts) once, before any
    re-fetch, and then 10 seconds followed by one [Get] for every snapshot
    observed still building: after the first snapshot [c0] and the
    re-fetched [cs], of which only the last is not building, the trace is
    the grace sleep, [length cs] rounds of sleep and re-fetch, and the
    tab-separated row of the last snapshot.  For new, building, building,
    active these are one grace sleep, three poll sleeps, three re-fetches
    and the row of the active cluster. *)
Theorem C3_wait_grace_then_one_poll_per_observation :
  forall (fuel : nat) (carina : WaitClusterCommand) (op : clusterOp)
         (t0 t1 : Trace) (c0 : Cluster) (cs : list Cluster),
    Wait carina = true ->
    op (ClusterName carina) t0 = (Returned (Some c0, None), t1) ->
    buildingChain c0 cs ->
    stillBuilding (libcarina.Status (List.last cs c0)) = false ->
    getsAnswer carina (t1 ++ [EvSleep (40 * 1000000000)]) (map fetched cs) ->
    (length cs < fuel)%nat ->
    let w := TabWriter carina in
    let row := tabSeparatedRow (List.last cs c0) in
    let polled := t1 ++ [EvSleep (40 * 1000000000)]
                     ++ tenSecondPolls (ClusterName carina) (length cs) in
    exists res flushed,
      clusterApplyWait fuel carina op t0 = (res, polled ++ EvWrite row :: flushed)
      /\ (writer_Write w polled row = None ->
          flushed = [EvFlush]
          /\ res = Returned (writer_Flush w (polled ++ [EvWrite row])))
      /\ (forall e, writer_Write w polled row = Some e ->
          flushed = [] /\ res = Returned (Some e)).
Proof.
  intros fuel carina op t0 t1 c0 cs Hw Hop Hc Hlast Hg Hfuel w row polled.
  change (40 * 1000000000) with startupFudgeFactor in Hg.
  assert (Hp : polled = t1 ++ [EvSleep startupFudgeFactor]
                           ++ polls (ClusterName carina) (length cs))
    by reflexivity.
  rewrite (clusterApplyWait_wait fuel carina op t0 t1 (Some c0) None Hw Hop).
  replace fuel with (length cs + S (fuel - length cs - 1))%nat by lia.
  unfold bind.
  rewrite (waitLoop_fetches carina cs c0 None _ _ Hc Hg).
  rewrite (waitLoop_exit carina _ _ _ _ Hlast).
  replace ((t1 ++ [EvSleep startupFudgeFactor])
             ++ polls (ClusterName carina) (length cs)) with polled
    by (rewrite Hp; now rewrite <- app_assoc).
  replace (match cs with [] => None | _ :: _ => None end)
    with (@None error) by (now destruct cs).
  apply applyTail_writes_row.
Qed.

(** C4. When a re-fetch of the polling loop returns an error, the loop is
    left at once: that [Get] is the last event of the command (no retry),
    the command returns the error, and nothing has been written to or
    flushed from the sink, however many snapshots were fetched before. *)
Theorem C4_refetch_error_aborts_polling :
  forall (fuel : nat) (carina : WaitClusterCommand) (op : clusterOp)
         (t0 t1 : Trace) (c0 : Cluster) (err0 : option error)
         (cs : list Cluster) (x : option Cluster) (e : error),
    Wait carina = true ->
    op (ClusterName carina) t0 = (Returned (Some c0, err0), t1) ->
    buildingChain c0 cs ->
    stillBuilding (libcarina.Status (List.last cs c0)) = true ->
    getsAnswer carina (t1 ++ [EvSleep (40 * 1000000000)])
               (map fetched cs ++ [(x, Some e)]) ->
    (length cs < fuel)%nat ->
    let added := [EvSleep (40 * 1000000000)]
                   ++ tenSecondPolls (ClusterName carina) (S (length cs)) in
    clusterApplyWait fuel carina op t0 = (Returned (Some e), t1 ++ added)
    /\ countGets added = S (length cs)
    /\ Forall (fun ev => isOutput ev = false) added.
Proof.
  intros fuel carina op t0 t1 c0 err0 cs x e Hw Hop Hc Hlast Hg Hfuel.
  change (40 * 1000000000) with startupFudgeFactor in Hg |- *.
  change (tenSecondPolls (ClusterName carina) (S (length cs)))
    with (polls (ClusterName carina) (S (length cs))).
  intros added.
  apply getsAnswer_app in Hg. destruct Hg as [Hg Hfail].
  rewrite length_map in Hfail. destruct Hfail as [Hfail _].
  split; [|split].
  - rewrite (clusterApplyWait_wait fuel carina op t0 t1 (Some c0) err0 Hw Hop).
    replace fuel with (length cs + S (fuel - length cs - 1))%nat by lia.
    unfold bind.
    rewrite (waitLoop_fetches carina cs c0 err0 _ _ Hc Hg).
    rewrite (waitLoop_break carina _ _ _ _ x e Hlast Hfail).
    simpl applyTail. unfold ret, added.
    rewrite polls_snoc, <- !app_assoc. reflexivity.
  - unfold added. change (countGets (polls (ClusterName carina) (S (length cs)))
                            = S (length cs)).
    apply countGets_polls.
  - unfold added. constructor; [reflexivity|]. apply polls_no_output.
Qed.


(** C6 (the code departs from it). [create] with a node count below one is
    to fail with the validation error without calling the API.  With
    [--wait] and [--nodes=0] no API call is made, but the command sleeps
    the 40 seconds of [startupFudgeFactor] and panics on the nil cluster
    instead of returning the validation error, which it does return
    without [--wait]. *)
Theorem C6_create_zero_nodes_with_wait_panics :
  forall (client : libcarina_ClusterClient) (w : Writer) (name : string)
         (autoscale : bool) (fuel : nat) (t : Trace),
    Create (S fuel) (mkCreate client w name true 0 autoscale) t
    = (Panicked, t ++ [EvSleep (40 * 1000000000)])
    /\ Create fuel (mkCreate client w name false 0 autoscale) t
       = (Returned (Some (errorString "nodes must be >= 1")), t).
Proof.
  intros client w name autoscale fuel t. split.
  - reflexivity.
  - now apply Create_rejects_without_wait.
Qed.

(** ** [clusterApply]: get, delete, grow *)

Lemma applyAction_unfold (a : ApplyAction) (t : Trace) :
  applyAction a t
  = applyTail {| WaitClusterCommand_ClusterCommand := applyCommand a; Wait := false |}
              (applyAnswer a t) (t ++ [applyCall a]).
Proof.
  destruct a as [carina|carina|carina]; simpl;
    unfold Get, Delete, Grow, clusterApply, bind at 1; run;
    match goal with
    | |- context [match ?r with (_, _) => _ end] => destruct r as [cl [e|]]
    end;
    reflexivity.
Qed.

(** C8. [get], [delete] and [grow] make exactly one API call, the first
    thing they do.  When that call returns an error the command returns it
    and nothing is written to or flushed from the sink; when writing the
    row returns an error the command returns it and the sink is not
    flushed.  So [grow] against a failing backend ends in a non-zero exit
    with no row. *)
Theorem C8_apply_short_circuits_on_error :
  forall (a : ApplyAction) (t : Trace),
    let w := TabWriter (applyCommand a) in
    let called := t ++ [applyCall a] in
    (exists rest,
        snd (applyAction a t) = called ++ rest
        /\ Forall (fun ev => isApiCall ev = false) rest)
    /\ isApiCall (applyCall a) = true
    /\ (forall cluster e,
          applyAnswer a t = (cluster, Some e) ->
          applyAction a t = (Returned (Some e), called)
          /\ exitsNonZero (Some e) = true)
    /\ (forall c e,
          applyAnswer a t = (Some c, None) ->
          writer_Write w called (tabSeparatedRow c) = Some e ->
          applyAction a t
          = (Returned (Some e), called ++ [EvWrite (tabSeparatedRow c)])
          /\ exitsNonZero (Some e) = true).
Proof.
  intros a t w called. rewrite applyAction_unfold. fold called.
  split; [|split; [|split]].
  - destruct (applyAnswer a t) as [[c|] [e|]].
    + exists []. rewrite app_nil_r. split; [reflexivity|constructor].
    + destruct (applyTail_renders
                  {| WaitClusterCommand_ClusterCommand := applyCommand a;
                     Wait := false |} c called)
        as (res & flushed & E & Hok & Hko).
      rewrite E. exists (EvWrite (clusterRow c +:+ newline) :: flushed).
      split; [reflexivity|]. constructor; [reflexivity|].
      simpl in Hok, Hko.
      destruct (writer_Write (TabWriter (applyCommand a)) called
                             (clusterRow c +:+ newline)) as [e|].
      * destruct (Hko e eq_refl) as [-> _]. constructor.
      * destruct (Hok eq_refl) as [-> _]. repeat constructor.
    + exists []. rewrite app_nil_r. split; [reflexivity|constructor].
    + exists []. rewrite app_nil_r. split; [reflexivity|constructor].
  - destruct a; reflexivity.
  - intros cluster e Ha. rewrite Ha. split; reflexivity.
  - intros c e Ha Hw. rewrite row_spelled in Hw |- *. rewrite Ha.
    destruct (applyTail_renders
                {| WaitClusterCommand_ClusterCommand := applyCommand a;
                   Wait := false |} c called)
      as (res & flushed & E & _ & Hko).
    destruct (Hko e Hw) as [-> ->]. rewrite E. split; reflexivity.
Qed.

(** [create] makes no API call when the node count is below one. *)
Lemma Create_below_one_no_call fuel (carina : CreateCommand) (t : Trace) :
  Nodes carina < 1 ->
  (exists evs, snd (Create fuel carina t) = t ++ evs
               /\ Forall (fun ev => isApiCall ev = false) evs)
  /\ fst (Create fuel carina t) <> Returned None.
Proof.
  intros Hn. apply Z.ltb_lt in Hn.
  unfold Create, clusterApplyWait, Create_op, bind at 1. rewrite Hn.
  unfold ret at 1. destruct (Wait carina).
  - destruct fuel as [|fuel]; run.
    + split; [|discriminate]. exists [EvSleep startupFudgeFactor].
      split; [reflexivity|]. repeat constructor.
    + split; [|discriminate]. exists [EvSleep startupFudgeFactor].
      split; [reflexivity|]. repeat constructor.
  - run. split; [|discriminate]. exists []. rewrite app_nil_r.
    split; [reflexivity|constructor].
Qed.

(** C10, as the code has it.  [grow] hands any delta, zero and negative
    ones too, to the API unchanged, as the first thing it does; it returns
    an error exactly when the API call, the write of the row or the final
    flush of the sink returns that error.  [create] makes no API call for a
    node count below one and does not succeed; without [--wait] it returns
    the validation error. *)
Theorem C10_grow_forwards_delta_unchecked :
  forall (carina : GrowCommand) (t : Trace),
    let name := ClusterName carina in
    let w := TabWriter carina in
    let call := EvGrow name (GrowNodes carina) in
    let answer := client_Grow (ClusterClient carina) t name (GrowNodes carina) in
    (exists rest, snd (Grow carina t) = t ++ call :: rest)
    /\ (forall e,
          fst (Grow carina t) = Returned (Some e) <->
          snd answer = Some e
          \/ (exists c, answer = (Some c, None)
                /\ writer_Write w (t ++ [call]) (tabSeparatedRow c) = Some e)
          \/ (exists c, answer = (Some c, None)
                /\ writer_Write w (t ++ [call]) (tabSeparatedRow c) = None
                /\ writer_Flush w (t ++ [call; EvWrite (tabSeparatedRow c)])
                   = Some e))
    /\ (forall fuel (create : CreateCommand) (t' : Trace),
          Nodes create < 1 ->
          (exists evs, snd (Create fuel create t') = t' ++ evs
                       /\ Forall (fun ev => isApiCall ev = false) evs)
          /\ fst (Create fuel create t') <> Returned None
          /\ (Wait create = false ->
              Create fuel create t'
              = (Returned (Some (errorString "nodes must be >= 1")), t'))).
Proof.
  intros carina t name w call answer.
  split; [|split].
  - unfold Grow, clusterApply, bind at 1. run. fold name call answer.
    destruct answer as [[c|] [e|]]; simpl.
    + now exists [].
    + fold w. destruct (writer_Write w (t ++ [call]) _).
      * simpl. rewrite <- app_assoc. eauto.
      * simpl. rewrite <- !app_assoc. eauto.
    + now exists [].
    + now exists [].
  - intros e. setoid_rewrite row_spelled.
    unfold Grow, clusterApply, bind at 1. run. fold name call answer.
    destruct answer as [[c|] [e0|]]; simpl.
    + split.
      * intros H. left. congruence.
      * intros [H|[(c' & H & _)|(c' & H & _)]]; congruence.
    + fold w. destruct (writer_Write w (t ++ [call]) (clusterRow c +:+ newline))
        as [e1|] eqn:Hw; simpl.
      * split.
        -- intros H. right. left. exists c. split; [reflexivity|]. congruence.
        -- intros [H|[(c' & H & H')|(c' & H & H' & _)]]; try congruence.
           all: inversion H; subst c'; congruence.
      * rewrite snoc2. split.
        -- intros H. right. right. exists c. repeat split; congruence.
        -- intros [H|[(c' & H & H')|(c' & H & _ & H')]]; try congruence.
           all: inversion H; subst c'; congruence.
    + split.
      * intros H. left. congruence.
      * intros [H|[(c' & H & _)|(c' & H & _)]]; congruence.
    + split.
      * discriminate.
      * intros [H|[(c' & H & _)|(c' & H & _)]]; congruence.
  - intros fuel create t' Hn.
    destruct (Create_below_one_no_call fuel create t' Hn) as [H1 H2].
    split; [exact H1|]. split; [exact H2|].
    intros Hw. now apply Create_rejects_without_wait.
Qed.

(** ** Rows and the header *)

Lemma mentions_app (p : ascii -> bool) (a b : string) :
  mentions p (a +:+ b) = mentions p a || mentions p b.
Proof.
  induction a as [|c a IH]; [reflexivity|].
  change (String c a +:+ b) with (String c (a +:+ b)).
  simpl. now rewrite IH, orb_assoc.
Qed.

Lemma digit_numeric (k : N) : (k < 10)%N -> isNumeric (digit k) = true.
Proof.
  intros Hk.
  assert (H : (k = 0 \/ k = 1 \/ k = 2 \/ k = 3 \/ k = 4 \/ k = 5 \/ k = 6
               \/ k = 7 \/ k = 8 \/ k = 9)%N) by lia.
  repeat (destruct H as [-> | H]; [reflexivity|]). now subst k.
Qed.

Lemma formatPos_keeps (p : ascii -> bool) fuel : forall n acc,
  mentions p acc = true -> mentions p (formatPos fuel n acc) = true.
Proof.
  induction fuel as [|fuel IH]; intros n acc Hacc; simpl; [exact Hacc|].
  destruct (n / 10 =? 0)%N.
  - simpl. rewrite Hacc. apply orb_true_r.
  - apply IH. simpl. rewrite Hacc. apply orb_true_r.
Qed.

Lemma formatN_numeric (n : N) : mentions isNumeric (formatN n) = true.
Proof.
  unfold formatN. simpl.
  assert (Hd : isNumeric (digit (n mod 10)) = true).
  { apply digit_numeric. apply N.mod_lt. discriminate. }
  destruct (n / 10 =? 0)%N.
  - simpl. now rewrite Hd.
  - apply formatPos_keeps. simpl. now rewrite Hd.
Qed.

Lemma FormatInt_numeric (i : Z) : mentions isNumeric (strconv_FormatInt i) = true.
Proof.
  destruct i as [|p|p]; unfold strconv_FormatInt.
  - reflexivity.
  - apply formatN_numeric.
  - rewrite mentions_app. reflexivity.
Qed.

(** A row is never the header: its third field has a digit or a sign. *)
Lemma row_not_header (c : Cluster) : clusterRow c +:+ newline <> headerRow.
Proof.
  intros H. apply (f_equal (mentions isNumeric)) in H.
  rewrite clusterRow_fields in H.
  rewrite !mentions_app, FormatInt_numeric in H.
  rewrite !orb_true_r in H. simpl in H.
  vm_compute in H. discriminate.
Qed.

(** ** Which commands write the header *)

Lemma notHeader_row (c : Cluster) : notHeader (EvWrite (clusterRow c +:+ newline)).
Proof. intros H. inversion H as [H']. now apply row_not_header in H'. Qed.

Lemma emits_writeCredentials_range (P : Event -> Prop) sys pth files :
  (forall p data perm, P (EvWriteFile p data perm)) ->
  emits P (writeCredentials_range sys pth files).
Proof.
  intros HP. induction files as [|[fname b] files IH]; simpl.
  - apply emits_ret.
  - unfold WriteFile. apply emits_bind; [apply emits_ask, HP|].
    intros [e|]; [apply emits_ret|exact IH].
Qed.

Lemma notHeader_actions fuel sys (a : Action) :
  isList a = false -> emits notHeader (runAction fuel sys a).
Proof.
  destruct a as [carina|carina|carina|carina|carina|carina|carina];
    simpl; try discriminate; intros _.
  - unfold Create, Create_op. emits_run;
      solve [discriminate | apply notHeader_row].
  - unfold Get. emits_run; solve [discriminate | apply notHeader_row].
  - unfold Download, Download_write, writeCredentials. emits_run;
      solve [discriminate | apply emits_writeCredentials_range; discriminate].
  - unfold Grow. emits_run; solve [discriminate | apply notHeader_row].
  - unfold Rebuild. emits_run; solve [discriminate | apply notHeader_row].
  - unfold Delete. emits_run; solve [discriminate | apply notHeader_row].
Qed.

Lemma List_writes_header (carina : Command) (t : Trace) clusterList :
  client_List (ClusterClient carina) t = (clusterList, None) ->
  exists rest, snd (List carina t) = t ++ EvList :: EvWrite headerRow :: rest.
Proof.
  intros Hl. unfold List, bind at 1, ClusterClient_List, ask. rewrite Hl.
  change (writeClusterHeader (TabWriter carina))
    with (Write (TabWriter carina) headerRow).
  unfold bind at 1, Write, ask. rewrite snoc2.
  set (t2 := t ++ [EvList; EvWrite headerRow]).
  destruct (writer_Write (TabWriter carina) (t ++ [EvList]) headerRow).
  - exists []. reflexivity.
  - assert (He : emits (fun _ => True)
                   (err <- List_range (TabWriter carina) clusterList ;;
                    match err with
                    | Some _ => ret err
                    | None => Flush (TabWriter carina)
                    end)).
    { apply emits_bind.
      - clear. induction clusterList as [|c l IH]; simpl; [apply emits_ret|].
        emits_run; auto.
      - intros [e|]; emits_run; auto. }
    destruct (He t2) as (evs & E & _). exists evs.
    rewrite E. unfold t2. now rewrite <- app_assoc.
Qed.

(** C9. The row written for a cluster is its name, flavor, node count,
    autoscale flag and status, in this order, separated by horizontal tabs
    (byte 9) and ended by a line feed (byte 10).  [list] writes the header
    row, the five column names separated in the same way, before any
    cluster; no other command ever writes it.  [create foo --nodes=3
    --autoscale] answered at once with an active cluster of flavor
    [flavor] makes the one API call, writes the row foo, flavor, 3, true,
    active and flushes: no header, no sleep. *)
Theorem C9_row_format_header_only_by_list :
  forall (w : Writer) (c : Cluster) (t : Trace),
    let ht := String "009" "" in
    let lf := String "010" "" in
    let row := libcarina.ClusterName c +:+ ht +:+ libcarina.Flavor c +:+ ht
               +:+ strconv_FormatInt (libcarina.Nodes c) +:+ ht
               +:+ strconv_FormatBool (libcarina.AutoScale c) +:+ ht
               +:+ libcarina.Status c +:+ lf in
    let header := "ClusterName" +:+ ht +:+ "Flavor" +:+ ht +:+ "Nodes" +:+ ht
                  +:+ "AutoScale" +:+ ht +:+ "Status" +:+ lf in
    writeCluster w (Some c) t = (Returned (writer_Write w t row), t ++ [EvWrite row])
    /\ (forall (carina : Command) clusterList,
          client_List (ClusterClient carina) t = (clusterList, None) ->
          exists rest,
            snd (List carina t) = t ++ EvList :: EvWrite header :: rest)
    /\ (forall fuel sys (a : Action),
          isList a = false ->
          exists evs, snd (runAction fuel sys a t) = t ++ evs
                      /\ ~ In (EvWrite header) evs)
    /\ (forall fuel (client : libcarina_ClusterClient) (flavor : string),
          let request := mkCluster "foo" "" 3 true "" in
          let line := "foo" +:+ ht +:+ flavor +:+ ht +:+ "3" +:+ ht
                      +:+ "true" +:+ ht +:+ "active" +:+ lf in
          client_Create client t request
          = fetched (mkCluster "foo" flavor 3 true "active") ->
          writer_Write w (t ++ [EvCreate request]) line = None ->
          Create fuel (mkCreate client w "foo" false 3 true) t
          = (Returned (writer_Flush w (t ++ [EvCreate request; EvWrite line])),
             t ++ [EvCreate request; EvWrite line; EvFlush])).
Proof.
  intros w c t ht lf row header.
  assert (Hrow : row = clusterRow c +:+ newline)
    by (rewrite clusterRow_fields; reflexivity).
  change header with headerRow.
  split; [|split; [|split]].
  - unfold writeCluster. run. now rewrite Hrow.
  - intros carina clusterList Hl. eapply List_writes_header; eauto.
  - intros fuel sys a Ha.
    destruct (notHeader_actions fuel sys a Ha t) as (evs & E & F).
    exists evs. split; [exact E|].
    intros Hin. apply list_elem_of_In in Hin.
    rewrite Forall_forall in F. now apply (F _ Hin).
  - intros fuel client flavor request line Hc Hw.
    set (carina := mkCreate client w "foo" false 3 true).
    set (answer := mkCluster "foo" flavor 3 true "active").
    assert (Hop : Create_op carina (ClusterName carina) t
                  = (Returned (fetched answer), t ++ [EvCreate request])).
    { unfold Create_op, ClusterClient_Create, ask. simpl.
      f_equal. f_equal. exact Hc. }
    unfold Create.
    rewrite (clusterApplyWait_nowait fuel carina _ t _ _ eq_refl Hop).
    assert (Hline : clusterRow answer +:+ newline = line)
      by (now rewrite clusterRow_fields).
    destruct (applyTail_renders carina answer (t ++ [EvCreate request]))
      as (res & flushed & E & Hok & _).
    simpl in Hok. rewrite Hline in Hok, E.
    destruct (Hok Hw) as [-> ->]. unfold fetched. rewrite E.
    now rewrite <- !app_assoc.
Qed.

(** ** [credentials] *)

Lemma writesOk_tail sys dir t x files k :
  writesOk sys dir t (x :: files) (S k) ->
  writesOk sys dir (t ++ [fileEvent dir x]) files k.
Proof.
  intros H i entry Hi Hl.
  specialize (H (S i) entry ltac:(lia) Hl). simpl in H.
  now rewrite <- app_assoc.
Qed.

Lemma writesOk_head sys dir t x files k :
  writesOk sys dir t (x :: files) (S k) ->
  ioutil_WriteFile sys t (path.Join [dir; x.1]) x.2 perm_0600 = None.
Proof.
  intros H. specialize (H 0%nat x ltac:(lia) eq_refl). simpl in H.
  now rewrite app_nil_r in H.
Qed.

(** When every write succeeds, all files are written, in [range]'s order. *)
Lemma writeCredentials_range_all sys dir files : forall t,
  writesOk sys dir t files (length files) ->
  writeCredentials_range sys dir files t
  = (Returned None, t ++ map (fileEvent dir) files).
Proof.
  induction files as [|[fname b] files IH]; intros t Hok;
    cbn [writeCredentials_range map].
  - unfold ret. now rewrite app_nil_r.
  - unfold bind, WriteFile, ask.
    pose proof (writesOk_head _ _ _ (fname, b) _ _ Hok) as Hh.
    cbn [fst snd] in Hh. rewrite Hh.
    change (EvWriteFile (path.Join [dir; fname]) b perm_0600)
      with (fileEvent dir (fname, b)).
    rewrite (IH _ (writesOk_tail _ _ _ _ _ _ Hok)).
    now rewrite <- app_assoc.
Qed.


(** ** [path.Clean] on a name of one element *)


Lemma Clean_loop_done fuel rooted out dotdot :
  path.Clean_loop fuel rooted [] out dotdot = out.
Proof. destruct fuel; reflexivity. Qed.




Lemma list_ascii_app (a b : string) :
  list_ascii_of_string (a +:+ b) = list_ascii_of_string a ++ list_ascii_of_string b.
Proof.
  induction a as [|c a IH]; [reflexivity|].
  change (String c a +:+ b) with (String c (a +:+ b)). cbn. now rewrite IH.
Qed.

Lemma span_elem_app (s : string) (rest : list ascii) :
  mentions (fun c => Ascii.eqb c slash) s = false ->
  path.at_elem_end rest = true ->
  path.span_elem (list_ascii_of_string s ++ rest) = (list_ascii_of_string s, rest).
Proof.
  intros Hs Hrest. induction s as [|c s IH]; cbn.
  - destruct rest as [|r rest]; [reflexivity|]. cbn in Hrest |- *.
    now rewrite Hrest.
  - cbn in Hs. apply orb_false_elim in Hs. destruct Hs as [Hc Hs].
    rewrite Hc, (IH Hs). reflexivity.
Qed.

Lemma at_elem_end_app (s : string) (rest : list ascii) :
  mentions (fun c => Ascii.eqb c slash) s = false ->
  path.at_elem_end (list_ascii_of_string s ++ rest) = true -> s = "".
Proof.
  destruct s as [|c s]; [reflexivity|]. cbn.
  intros H. apply orb_false_elim in H. destruct H as [Hc _].
  rewrite Hc. discriminate.
Qed.

(** One round of the loop of [path.Clean] on a plain element that ends the
    path or is followed by a slash: the element is copied, after a slash
    when it is not the first. *)
Lemma Clean_loop_elem (c : ascii) (s : string) (rest out : list ascii) (n : nat) :
  plainName (String c s) = true ->
  path.at_elem_end rest = true ->
  path.Clean_loop (S n) false (c :: list_ascii_of_string s ++ rest) out 0
  = path.Clean_loop n false rest
      (rev (c :: list_ascii_of_string s)
         ++ (if (length out =? 0)%nat then out else slash :: out)) 0.
Proof.
  unfold plainName. rewrite !andb_true_iff, !negb_true_iff.
  intros [[[Hs _] Hd] Hdd] Hrest.
  pose proof Hs as Hs'. cbn in Hs'. apply orb_false_elim in Hs'.
  destruct Hs' as [Hc Hnos].
  pose proof (span_elem_app (String c s) rest Hs Hrest) as Hspan.
  change (list_ascii_of_string (String c s))
    with (c :: list_ascii_of_string s) in Hspan.
  change ((c :: list_ascii_of_string s) ++ rest)
    with (c :: list_ascii_of_string s ++ rest) in Hspan.
  cbn [path.Clean_loop]. rewrite Hc, Hspan.
  assert (H1 : Ascii.eqb c dot
               && path.at_elem_end (list_ascii_of_string s ++ rest) = false).
  { destruct (Ascii.eqb c dot) eqn:Hdot; [|reflexivity].
    apply Ascii.eqb_eq in Hdot. subst c. cbn [andb].
    destruct (path.at_elem_end (list_ascii_of_string s ++ rest)) eqn:Hend;
      [|reflexivity].
    apply (at_elem_end_app s rest Hnos) in Hend. subst s. discriminate. }
  assert (H2 : Ascii.eqb c dot
               && match list_ascii_of_string s ++ rest with
                  | c1 :: rem2 => Ascii.eqb c1 dot && path.at_elem_end rem2
                  | [] => false
                  end = false).
  { destruct (Ascii.eqb c dot) eqn:Hdot; [|reflexivity].
    apply Ascii.eqb_eq in Hdot. subst c. cbn [andb].
    destruct s as [|c1 s1]; [discriminate|].
    change (list_ascii_of_string (String c1 s1) ++ rest)
      with (c1 :: list_ascii_of_string s1 ++ rest).
    destruct (Ascii.eqb c1 dot) eqn:Hdot1; [|now rewrite Hdot1].
    apply Ascii.eqb_eq in Hdot1. subst c1. cbn [andb].
    destruct (path.at_elem_end (list_ascii_of_string s1 ++ rest)) eqn:Hend;
      [|reflexivity].
    cbn in Hnos. apply (at_elem_end_app s1 rest Hnos) in Hend. subst s1.
    discriminate. }
  rewrite H1, H2. cbn [andb orb negb].
  destruct (length out =? 0)%nat; reflexivity.
Qed.

(** Two plain names joined by a slash are in cleaned form. *)
Lemma Clean_two_plain (d f : string) :
  plainName d = true -> plainName f = true ->
  path.Clean (d +:+ "/" +:+ f) = d +:+ "/" +:+ f.
Proof.
  intros Hd Hf.
  destruct d as [|c s]; [discriminate|]. destruct f as [|c' s']; [discriminate|].
  assert (Hc : Ascii.eqb c slash = false).
  { unfold plainName in Hd. rewrite !andb_true_iff, !negb_true_iff in Hd.
    destruct Hd as [[[Hs _] _] _]. cbn in Hs. now apply orb_false_elim in Hs. }
  set (whole := String c s +:+ "/" +:+ String c' s').
  assert (Hl : list_ascii_of_string whole
               = c :: list_ascii_of_string s
                   ++ slash :: c' :: list_ascii_of_string s').
  { unfold whole. rewrite !list_ascii_app. reflexivity. }
  unfold path.Clean. rewrite Hl. cbv beta iota zeta. rewrite Hc.
  replace (length (c :: list_ascii_of_string s
                     ++ slash :: c' :: list_ascii_of_string s'))
    with (S (S (S (length (list_ascii_of_string s)
                   + length (list_ascii_of_string s')))))
    by (cbn; rewrite length_app; cbn; lia).
  rewrite (Clean_loop_elem c s (slash :: c' :: list_ascii_of_string s') [] _
             Hd eq_refl).
  cbn [length Nat.eqb]. rewrite app_nil_r.
  change (path.Clean_loop
            (S (S (length (list_ascii_of_string s)
                   + length (list_ascii_of_string s'))))
            false (slash :: c' :: list_ascii_of_string s')
            (rev (c :: list_ascii_of_string s)) 0)
    with (path.Clean_loop
            (S (length (list_ascii_of_string s)
                + length (list_ascii_of_string s')))
            false (c' :: list_ascii_of_string s')
            (rev (c :: list_ascii_of_string s)) 0).
  pose proof (Clean_loop_elem c' s' [] (rev (c :: list_ascii_of_string s))
                (length (list_ascii_of_string s)
                 + length (list_ascii_of_string s'))%nat Hf eq_refl) as Hsecond.
  rewrite app_nil_r in Hsecond. rewrite Hsecond.
  rewrite Clean_loop_done.
  replace (length (rev (c :: list_ascii_of_string s)) =? 0)%nat with false
    by (symmetry; apply Nat.eqb_neq; rewrite length_rev; discriminate).
  destruct (rev (c' :: list_ascii_of_string s')
              ++ slash :: rev (c :: list_ascii_of_string s)) as [|x l] eqn:Hout.
  - apply (f_equal (@length ascii)) in Hout. rewrite length_app in Hout.
    cbn in Hout. lia.
  - rewrite <- Hout. clear Hout Hsecond.
    set (A := c' :: list_ascii_of_string s').
    set (B := c :: list_ascii_of_string s).
    rewrite rev_app_distr.
    change (rev (slash :: rev B)) with (rev (rev B) ++ [slash]).
    rewrite !rev_involutive.
    rewrite <- (string_of_list_ascii_of_string whole), Hl.
    f_equal. unfold A, B. now rewrite <- app_assoc.
Qed.

Lemma Join_two_plain (d f : string) :
  plainName d = true -> plainName f = true ->
  path.Join [d; f] = d +:+ "/" +:+ f.
Proof.
  intros Hd Hf. cbn [path.Join strings_Join].
  replace (String.eqb d "") with false; [now apply Clean_two_plain|].
  unfold plainName in Hd. rewrite !andb_true_iff, !negb_true_iff in Hd.
  now destruct Hd as [[[_ ->] _] _].
Qed.

(** ** [Download] *)

Lemma writeCredentials_some sys w (creds : Credentials) pth (t : Trace) :
  writeCredentials sys w (Some creds) pth t
  = writeCredentials_range sys pth (range_Files sys t (libcarina.Files creds)) t.
Proof. reflexivity. Qed.

Section DownloadWrite.

Variable sys : System.
Variable carina : CredentialsCommand.
Variable creds : Credentials.
Variable dir : string.
Variable t : Trace.

Local Abbreviation files := (range_Files sys t (libcarina.Files creds)).
Local Abbreviation hint := (EvPrintln (sourceHelpString sys dir (os_Args0 sys))).


Lemma Download_write_all :
  writesOk sys dir t files (length files) ->
  Download_write sys carina (Some creds) dir t
  = (Returned (writer_Flush (TabWriter carina)
                 (t ++ map (fileEvent dir) files ++ [hint])),
     t ++ map (fileEvent dir) files ++ [hint; EvFlush]).
Proof.
  intros Hok. unfold Download_write, bind at 1.
  rewrite writeCredentials_some.
  rewrite (writeCredentials_range_all sys dir files t Hok).
  unfold bind, Println, Flush, ask. now rewrite <- !app_assoc.
Qed.

End DownloadWrite.




(** * The claims at concrete runs *)

(** C2 at a failed build: the status "error" is not one of the three, the
    loop ends at once and the row is written. *)
Lemma C2_error_status_stops_and_renders :
  let carina := mkWait (scriptedClient failed [] (None, None)) okWriter "foo" true in
  let c := mkCluster "foo" "container1-4G" 1 false "error" in
  let ht := String "009" "" in
  exists res rest,
    bind (waitLoop 1 carina (Some c) None) (applyTail carina) []
    = (res, [] ++ EvWrite ("foo" +:+ ht +:+ "container1-4G" +:+ ht +:+ "1" +:+ ht
                           +:+ "false" +:+ ht +:+ "error" +:+ String "010" "")
                  :: rest).
Proof.
  intros carina c ht.
  destruct (C2_polls_iff_still_building carina 0 c None [])
    as (_ & _ & _ & Hrender & _).
  apply Hrender.
  - simpl. intros [H|[H|H]]; discriminate H.
  - reflexivity.
Defined.

(** C2 as stated fails at a snapshot that comes with an error: [rebuild
    foo --wait] answered with an active cluster and an error leaves the
    loop at its first look, and returns the error without a row. *)
Lemma C2_snapshot_with_error_is_not_rendered :
  let c := mkCluster "foo" "container1-4G" 1 false "active" in
  let carina := mkWait (scriptedClient (Some c, Some apiDown) [] (None, None))
                       okWriter "foo" true in
  waitLoop 1 carina (Some c) (Some apiDown)
           [EvRebuild "foo"; EvSleep (40 * 1000000000)]
  = (Returned (Some c, Some apiDown),
     [EvRebuild "foo"; EvSleep (40 * 1000000000)])
  /\ Rebuild 1 carina []
     = (Returned (Some apiDown), [EvRebuild "foo"; EvSleep (40 * 1000000000)])
  /\ ~ exists buf, In (EvWrite buf) (snd (Rebuild 1 carina [])).
Proof.
  intros c carina. split; [reflexivity|]. split; [reflexivity|].
  intros [buf [H|[H|[]]]]; discriminate H.
Qed.

(** C3 at [create foo --wait] answered new, then building, building,
    active: one sleep of 40 seconds, three of 10 seconds, three re-fetches,
    and the row of the active cluster. *)
Lemma C3_new_building_building_active :
  let snapshot := mkCluster "foo" "container1-4G" 1 false in
  let client := scriptedClient (fetched (snapshot "new"))
                  [fetched (snapshot "building"); fetched (snapshot "building");
                   fetched (snapshot "active")] (None, None) in
  let ht := String "009" "" in
  Create 4 (mkCreate client okWriter "foo" true 1 false) []
  = (Returned None,
     [ EvCreate (mkCluster "foo" "" 1 false "");
       EvSleep 40000000000;
       EvSleep 10000000000; EvGet "foo";
       EvSleep 10000000000; EvGet "foo";
       EvSleep 10000000000; EvGet "foo";
       EvWrite ("foo" +:+ ht +:+ "container1-4G" +:+ ht +:+ "1" +:+ ht
                +:+ "false" +:+ ht +:+ "active" +:+ String "010" "");
       EvFlush ]).
Proof.
  intros snapshot client ht.
  set (carina := mkCreate client okWriter "foo" true 1 false).
  destruct (C3_wait_grace_then_one_poll_per_observation
              4 carina (Create_op carina) [] [EvCreate (mkCluster "foo" "" 1 false "")]
              (snapshot "new")
              [snapshot "building"; snapshot "building"; snapshot "active"])
    as (res & flushed & E & Hok & _).
  - reflexivity.
  - reflexivity.
  - simpl. auto.
  - reflexivity.
  - simpl. auto.
  - simpl. lia.
  - destruct (Hok eq_refl) as [-> ->]. exact E.
Defined.

(** C4 at [rebuild foo --wait]: the second re-fetch fails, the command
    returns its error after two rounds and writes nothing. *)
Lemma C4_second_refetch_fails :
  let snapshot := mkCluster "foo" "container1-4G" 1 false in
  let client := scriptedClient (fetched (snapshot "rebuilding-swarm"))
                  [fetched (snapshot "building"); failed] (None, None) in
  Rebuild 2 (mkWait client okWriter "foo" true) []
  = (Returned (Some apiDown),
     [ EvRebuild "foo"; EvSleep 40000000000;
       EvSleep 10000000000; EvGet "foo";
       EvSleep 10000000000; EvGet "foo" ]).
Proof.
  intros snapshot client.
  set (carina := mkWait client okWriter "foo" true).
  apply (C4_refetch_error_aborts_polling
           2 carina (ClusterClient_Rebuild carina) [] [EvRebuild "foo"]
           (snapshot "rebuilding-swarm") None [snapshot "building"] None apiDown).
  - reflexivity.
  - reflexivity.
  - simpl. auto.
  - reflexivity.
  - simpl. auto.
  - simpl. lia.
Defined.


(** C8 at [grow foo --nodes=2] against a backend that is down. *)
Lemma C8_grow_against_failing_backend :
  let carina := mkGrow (scriptedClient failed [] (None, None)) okWriter "foo" 2 in
  Grow carina [] = (Returned (Some apiDown), [EvGrow "foo" 2])
  /\ exitsNonZero (Some apiDown) = true.
Proof.
  intros carina.
  destruct (C8_apply_short_circuits_on_error (ApplyGrow carina) [])
    as (_ & _ & Hcall & _).
  apply (Hcall None apiDown). reflexivity.
Defined.

(** C9 at [create foo --nodes=3 --autoscale], active at once. *)
Lemma C9_create_active_at_once :
  let c := mkCluster "foo" "container1-4G" 3 true "active" in
  let client := scriptedClient (fetched c) [] (None, None) in
  let ht := String "009" "" in
  Create 0 (mkCreate client okWriter "foo" false 3 true) []
  = (Returned None,
     [ EvCreate (mkCluster "foo" "" 3 true "");
       EvWrite ("foo" +:+ ht +:+ "container1-4G" +:+ ht +:+ "3" +:+ ht
                +:+ "true" +:+ ht +:+ "active" +:+ String "010" "");
       EvFlush ]).
Proof.
  intros c client ht.
  destruct (C9_row_format_header_only_by_list okWriter c [])
    as (_ & _ & _ & Hcreate).
  apply (Hcreate 0%nat client "container1-4G"); reflexivity.
Defined.



(** C10 at [create foo --nodes=0]: the validation error, no API call. *)
Lemma C10_create_rejects_zero_nodes :
  let client := scriptedClient failed [] (None, None) in
  Create 0 (mkCreate client okWriter "foo" false 0 false) []
  = (Returned (Some (errorString "nodes must be >= 1")), []).
Proof.
  intros client.
  destruct (C10_grow_forwards_delta_unchecked (mkGrow client okWriter "foo" (-1)) [])
    as (_ & _ & Hcreate).
  apply Hcreate; reflexivity.
Defined.

(** C10 as stated fails when the flush fails: [grow] returns that error
    though neither the API call nor the write of the row returned one. *)
Lemma C10_grow_returns_flush_error :
  let c := mkCluster "foo" "container1-4G" 3 false "active" in
  let carina := mkGrow (scriptedClient (fetched c) [] (None, None)) flushFails "foo" 2 in
  let answer := client_Grow (ClusterClient carina) [] "foo" 2 in
  ~ ((exists e, fst (Grow carina []) = Returned (Some e))
     <-> ((exists e, snd answer = Some e)
          \/ (exists e, writer_Write (TabWriter carina) [EvGrow "foo" 2]
                          (tabSeparatedRow c) = Some e))).
Proof.
  intros c carina answer [H _].
  destruct H as [[e He]|[e He]].
  - exists brokenPipe. reflexivity.
  - discriminate He.
  - discriminate He.
Qed.

(** * Further properties of the commands *)

(** ** [list] *)

Lemma rowsOk_tail w t c clusterList k :
  rowsOk w t (c :: clusterList) (S k) ->
  rowsOk w (t ++ [rowEvent c]) clusterList k.
Proof.
  intros H i c' Hi Hl.
  specialize (H (S i) c' ltac:(lia) Hl). cbn [take map] in H.
  now rewrite <- app_assoc.
Qed.

Lemma rowsOk_head w t c clusterList k :
  rowsOk w t (c :: clusterList) (S k) ->
  writer_Write w t (tabSeparatedRow c) = None.
Proof.
  intros H. specialize (H 0%nat c ltac:(lia) eq_refl). cbn [take map] in H.
  now rewrite app_nil_r in H.
Qed.

Lemma List_range_step w c clusterList t :
  List_range w (c :: clusterList) t
  = match writer_Write w t (tabSeparatedRow c) with
    | Some e => (Returned (Some e), t ++ [rowEvent c])
    | None => List_range w clusterList (t ++ [rowEvent c])
    end.
Proof.
  cbn [List_range]. unfold bind, writeCluster, deref, ret, bind, Write, ask.
  rewrite <- (row_spelled c). fold (rowEvent c).
  destruct (writer_Write w t (tabSeparatedRow c)); reflexivity.
Qed.

Lemma List_range_all w clusterList : forall t,
  rowsOk w t clusterList (length clusterList) ->
  List_range w clusterList t = (Returned None, t ++ map rowEvent clusterList).
Proof.
  induction clusterList as [|c l IH]; intros t Hok.
  - cbn. unfold ret. now rewrite app_nil_r.
  - rewrite List_range_step, (rowsOk_head _ _ _ _ _ Hok).
    rewrite (IH _ (rowsOk_tail _ _ _ _ _ Hok)). cbn [map].
    now rewrite <- app_assoc.
Qed.

Lemma List_range_fail w clusterList : forall t k c e,
  clusterList !! k = Some c ->
  rowsOk w t clusterList k ->
  writer_Write w (t ++ map rowEvent (take k clusterList))
               (tabSeparatedRow c) = Some e ->
  List_range w clusterList t
  = (Returned (Some e), t ++ map rowEvent (take (S k) clusterList)).
Proof.
  induction clusterList as [|c0 l IH]; intros t k c e Hl Hok He.
  - discriminate.
  - rewrite List_range_step. destruct k as [|k].
    + inversion Hl; subst c0. cbn [take map] in He.
      rewrite app_nil_r in He. rewrite He. reflexivity.
    + rewrite (rowsOk_head _ _ _ _ _ Hok).
      change ((c0 :: l) !! S k) with (l !! k) in Hl.
      cbn [take map] in He |- *.
      rewrite (IH (t ++ [rowEvent c0]) k c e Hl).
      * now rewrite <- app_assoc.
      * now apply rowsOk_tail.
      * now rewrite <- app_assoc.
Qed.

(** What [List] does once the API has answered without error. *)
Lemma List_listed (carina : Command) (t : Trace) clusterList :
  client_List (ClusterClient carina) t = (clusterList, None) ->
  List carina t
  = match writer_Write (TabWriter carina) (t ++ [EvList]) headerRow with
    | Some e => (Returned (Some e), t ++ [EvList; EvWrite headerRow])
    | None =>
        bind (List_range (TabWriter carina) clusterList)
             (fun err => match err with
                         | Some _ => ret err
                         | None => Flush (TabWriter carina)
                         end)
             (t ++ [EvList; EvWrite headerRow])
    end.
Proof.
  intros Hl. unfold List, bind at 1, ClusterClient_List, ask. rewrite Hl.
  change (writeClusterHeader (TabWriter carina))
    with (Write (TabWriter carina) headerRow).
  unfold bind at 1, Write, ask. rewrite snoc2.
  destruct (writer_Write (TabWriter carina) (t ++ [EvList]) headerRow);
    reflexivity.
Qed.

(** X1. When the API lists the clusters and the sink accepts every write,
    [list] writes the header, then one row per cluster in the order the
    API returned them, then flushes; its result is the result of the
    flush.  An empty list gives the header alone. *)
Theorem List_writes_header_then_rows_in_order :
  forall (carina : Command) (t : Trace) (clusterList : list Cluster),
    let w := TabWriter carina in
    let headed := t ++ [EvList; EvWrite headerRow] in
    client_List (ClusterClient carina) t = (clusterList, None) ->
    writer_Write w (t ++ [EvList]) headerRow = None ->
    rowsOk w headed clusterList (length clusterList) ->
    List carina t
    = (Returned (writer_Flush w (headed ++ map rowEvent clusterList)),
       headed ++ map rowEvent clusterList ++ [EvFlush]).
Proof.
  intros carina t clusterList w headed Hl Hh Hok.
  rewrite (List_listed carina t clusterList Hl). fold w. rewrite Hh.
  fold headed. unfold bind.
  rewrite (List_range_all w clusterList headed Hok).
  unfold Flush, ask. now rewrite <- app_assoc.
Qed.

(** X2. [list] stops at the first error and does not flush: an error of
    the API call is returned with nothing written, even when clusters came
    with it; a refused header is the only write; a refused row is the last
    write, the rows before it having been written. *)
Theorem List_stops_at_first_error :
  forall (carina : Command) (t : Trace) (clusterList : list Cluster) (e : error),
    let w := TabWriter carina in
    let headed := t ++ [EvList; EvWrite headerRow] in
    (client_List (ClusterClient carina) t = (clusterList, Some e) ->
     List carina t = (Returned (Some e), t ++ [EvList]))
    /\ (client_List (ClusterClient carina) t = (clusterList, None) ->
        writer_Write w (t ++ [EvList]) headerRow = Some e ->
        List carina t = (Returned (Some e), headed))
    /\ (forall k c,
          client_List (ClusterClient carina) t = (clusterList, None) ->
          writer_Write w (t ++ [EvList]) headerRow = None ->
          clusterList !! k = Some c ->
          rowsOk w headed clusterList k ->
          writer_Write w (headed ++ map rowEvent (take k clusterList))
                       (tabSeparatedRow c) = Some e ->
          List carina t
          = (Returned (Some e), headed ++ map rowEvent (take (S k) clusterList))).
Proof.
  intros carina t clusterList e w headed. split; [|split].
  - intros Hl. unfold List, bind at 1, ClusterClient_List, ask.
    now rewrite Hl.
  - intros Hl Hh. rewrite (List_listed carina t clusterList Hl).
    fold w. now rewrite Hh.
  - intros k c Hl Hh Hk Hok He.
    rewrite (List_listed carina t clusterList Hl). fold w. rewrite Hh.
    fold headed. unfold bind.
    now rewrite (List_range_fail w clusterList headed k c e Hk Hok He).
Qed.

(** ** [get], [delete], [grow] when the call succeeds *)

(** X3. When the API call of [get], [delete] or [grow] succeeds and the
    sink accepts the row, the command writes the row of the cluster the
    backend returned and flushes; its result is the result of the flush. *)
Theorem apply_renders_what_the_backend_returned :
  forall (a : ApplyAction) (t : Trace) (c : Cluster),
    let w := TabWriter (applyCommand a) in
    let called := t ++ [applyCall a] in
    applyAnswer a t = (Some c, None) ->
    writer_Write w called (tabSeparatedRow c) = None ->
    applyAction a t
    = (Returned (writer_Flush w (called ++ [rowEvent c])),
       called ++ [rowEvent c; EvFlush]).
Proof.
  intros a t c w called Ha Hw. rewrite applyAction_unfold, Ha. fold called.
  destruct (applyTail_writes_row
              {| WaitClusterCommand_ClusterCommand := applyCommand a;
                 Wait := false |} c called)
    as (res & flushed & E & Hok & _).
  destruct (Hok Hw) as [-> ->]. rewrite E. reflexivity.
Qed.

(** X4. A nil cluster that comes without an error makes the command panic
    when it builds the row: [get], [delete] and [grow] right after their
    call, [create] and [rebuild] right after theirs without [--wait], and
    after the grace sleep with it.  Nothing is written. *)
Theorem nil_cluster_without_error_panics :
  forall (a : ApplyAction) (carina : WaitClusterCommand) (op : clusterOp)
         (fuel : nat) (t t1 : Trace),
    (applyAnswer a t = (None, None) ->
     applyAction a t = (Panicked, t ++ [applyCall a]))
    /\ (op (ClusterName carina) t = (Returned (None, None), t1) ->
        Wait carina = false ->
        clusterApplyWait fuel carina op t = (Panicked, t1))
    /\ (op (ClusterName carina) t = (Returned (None, None), t1) ->
        Wait carina = true ->
        clusterApplyWait (S fuel) carina op t
        = (Panicked, t1 ++ [EvSleep (40 * 1000000000)])).
Proof.
  intros a carina op fuel t t1.
  change (40 * 1000000000) with startupFudgeFactor. split; [|split].
  - intros Ha. now rewrite applyAction_unfold, Ha.
  - intros Hop Hw. now rewrite (clusterApplyWait_nowait _ _ _ _ _ _ Hw Hop).
  - intros Hop Hw.
    now rewrite (clusterApplyWait_wait _ _ _ _ _ _ _ Hw Hop).
Qed.

(** ** The shape of a run of [create] and [rebuild] *)

Lemma waitLoop_shape fuel : forall (carina : WaitClusterCommand) cluster err t,
  exists n,
    snd (waitLoop fuel carina cluster err t) = t ++ polls (ClusterName carina) n
    /\ (n <= fuel)%nat.
Proof.
  induction fuel as [|fuel IH]; intros carina cluster err t.
  - exists 0%nat. cbn. rewrite app_nil_r. auto.
  - destruct cluster as [c|].
    + destruct (stillBuilding (libcarina.Status c)) eqn:Hb.
      * destruct (client_Get (ClusterClient carina) (t ++ [EvSleep waitBetween])
                             (ClusterName carina)) as [cluster' [e|]] eqn:Hg.
        -- exists 1%nat. rewrite (waitLoop_break _ _ _ _ _ _ _ Hb Hg).
           split; [reflexivity|lia].
        -- rewrite (waitLoop_continue _ _ _ _ _ _ Hb Hg).
           destruct (IH carina cluster' None
                        (t ++ [EvSleep waitBetween; EvGet (ClusterName carina)]))
             as (n & E & Hn).
           exists (S n). rewrite E, polls_S, <- app_assoc. split; [reflexivity|lia].
      * exists 0%nat. rewrite (waitLoop_exit _ _ _ _ _ Hb). cbn.
        rewrite app_nil_r. split; [reflexivity|lia].
    + exists 0%nat. rewrite waitLoop_nil. cbn. rewrite app_nil_r.
      split; [reflexivity|lia].
Qed.

Lemma applyTail_shape (carina : WaitClusterCommand) (r : ptr_err Cluster) (t : Trace) :
  exists tail,
    snd (applyTail carina r t) = t ++ tail
    /\ (tail = []
        \/ exists row, tail = [EvWrite row] \/ tail = [EvWrite row; EvFlush]).
Proof.
  destruct r as [cluster [e|]].
  - exists []. cbn. rewrite app_nil_r. auto.
  - destruct cluster as [c|].
    + destruct (applyTail_writes_row carina c t)
        as (res & flushed & E & Hok & Hko).
      rewrite E. cbn [snd].
      exists (EvWrite (tabSeparatedRow c) :: flushed).
      split; [reflexivity|]. right. exists (tabSeparatedRow c).
      cbv zeta in Hok, Hko.
      destruct (writer_Write (TabWriter carina) t (tabSeparatedRow c))
        as [e|].
      * destruct (Hko e eq_refl) as [-> _]. now left.
      * destruct (Hok eq_refl) as [-> _]. now right.
    + exists []. cbn. rewrite app_nil_r. auto.
Qed.

(** After a first call that returned, there is the grace sleep and some
    rounds of polling when waiting, and then at most one row and a flush. *)
Lemma clusterApplyWait_shape fuel (carina : WaitClusterCommand) (op : clusterOp)
      (t0 t1 : Trace) (r : ptr_err Cluster) :
  op (ClusterName carina) t0 = (Returned r, t1) ->
  exists evs,
    snd (clusterApplyWait fuel carina op t0) = t1 ++ evs
    /\ waitShape (ClusterName carina) (Wait carina) fuel evs.
Proof.
  intros Hop. destruct r as [cluster err].
  destruct (Wait carina) eqn:Hw.
  - rewrite (clusterApplyWait_wait _ _ _ _ _ _ _ Hw Hop). unfold bind.
    destruct (waitLoop_shape fuel carina cluster err
                (t1 ++ [EvSleep startupFudgeFactor])) as (n & E & Hn).
    destruct (waitLoop fuel carina cluster err
                (t1 ++ [EvSleep startupFudgeFactor])) as [[r'| |] t2];
      cbn [snd] in E; subst t2.
    + destruct (applyTail_shape carina r'
                  ((t1 ++ [EvSleep startupFudgeFactor])
                     ++ polls (ClusterName carina) n)) as (tail & E & Ht).
      rewrite E.
      exists ((EvSleep startupFudgeFactor :: polls (ClusterName carina) n) ++ tail).
      split; [now rewrite <- !app_assoc|].
      exists n, tail. repeat split; auto; discriminate.
    + exists ((EvSleep startupFudgeFactor :: polls (ClusterName carina) n) ++ []).
      cbn [snd]. split; [now rewrite app_nil_r, <- !app_assoc|].
      exists n, []. repeat split; auto; discriminate.
    + exists ((EvSleep startupFudgeFactor :: polls (ClusterName carina) n) ++ []).
      cbn [snd]. split; [now rewrite app_nil_r, <- !app_assoc|].
      exists n, []. repeat split; auto; discriminate.
  - rewrite (clusterApplyWait_nowait _ _ _ _ _ _ Hw Hop).
    destruct (applyTail_shape carina (cluster, err) t1) as (tail & E & Ht).
    exists tail. split; [exact E|].
    exists 0%nat, tail. repeat split; auto; lia.
Qed.

(** X5. Every run of [rebuild] is the one [Rebuild] call on the cluster of
    the command, then, with [--wait], the 40 second sleep and some rounds
    of a 10 second sleep followed by a [Get] of that same cluster, and at
    the end nothing, one row, or one row and the flush.  Without [--wait]
    there is no sleep and no [Get]. *)
Theorem Rebuild_run_shape :
  forall (fuel : nat) (carina : WaitClusterCommand) (t : Trace),
    exists evs,
      snd (Rebuild fuel carina t) = t ++ EvRebuild (ClusterName carina) :: evs
      /\ waitShape (ClusterName carina) (Wait carina) fuel evs.
Proof.
  intros fuel carina t. unfold Rebuild.
  destruct (clusterApplyWait_shape fuel carina (ClusterClient_Rebuild carina) t
              (t ++ [EvRebuild (ClusterName carina)])
              (client_Rebuild (ClusterClient carina) t (ClusterName carina))
              eq_refl) as (evs & E & Hs).
  exists evs. rewrite E, <- app_assoc. auto.
Qed.

(** X6. With a node count of at least one, [create] first sends one
    [Create] request that carries the name, the node count and the
    autoscale flag of the command unchanged and leaves flavor and status
    empty; what follows has the shape of a wait: no second request. *)
Theorem Create_sends_one_request :
  forall (fuel : nat) (carina : CreateCommand) (t : Trace),
    1 <= Nodes carina ->
    exists evs,
      snd (Create fuel carina t) = t ++ EvCreate (createRequest carina) :: evs
      /\ waitShape (ClusterName carina) (Wait carina) fuel evs.
Proof.
  intros fuel carina t Hn. unfold Create.
  assert (Hop : Create_op carina (ClusterName carina) t
                = (Returned (client_Create (ClusterClient carina) t
                               (createRequest carina)),
                   t ++ [EvCreate (createRequest carina)])).
  { unfold Create_op. apply Z.ltb_ge in Hn. rewrite Hn. reflexivity. }
  destruct (clusterApplyWait_shape fuel carina (Create_op carina) t _ _ Hop)
    as (evs & E & Hs).
  exists evs. rewrite E, <- app_assoc. auto.
Qed.

(** ** Waiting has no bound *)

Lemma waitLoop_stuck (carina : WaitClusterCommand) :
  (forall t', exists c,
      client_Get (ClusterClient carina) t' (ClusterName carina) = (Some c, None)
      /\ stillBuilding (libcarina.Status c) = true) ->
  forall fuel c err t,
    stillBuilding (libcarina.Status c) = true ->
    waitLoop fuel carina (Some c) err t
    = (OutOfFuel, t ++ polls (ClusterName carina) fuel).
Proof.
  intros Hstuck fuel. induction fuel as [|fuel IH]; intros c err t Hb.
  - cbn. unfold out_of_fuel. now rewrite app_nil_r.
  - destruct (Hstuck (t ++ [EvSleep waitBetween])) as (c' & Hg & Hb').
    rewrite (waitLoop_continue _ _ _ _ _ _ Hb Hg), (IH c' None _ Hb').
    now rewrite polls_S, <- app_assoc.
Qed.

(** X7. The wait has no bound of its own: when the first snapshot is still
    building and every re-fetch answers with a snapshot that is still
    building, [clusterApplyWait] with [--wait] is still polling after any
    number of rounds, one sleep and one [Get] per round, and has written
    nothing. *)
Theorem wait_polls_for_ever_while_building :
  forall (carina : WaitClusterCommand) (op : clusterOp) (t0 t1 : Trace)
         (c0 : Cluster) (err0 : option error),
    Wait carina = true ->
    op (ClusterName carina) t0 = (Returned (Some c0, err0), t1) ->
    stillBuilding (libcarina.Status c0) = true ->
    (forall t', exists c,
        client_Get (ClusterClient carina) t' (ClusterName carina) = (Some c, None)
        /\ stillBuilding (libcarina.Status c) = true) ->
    forall fuel,
      clusterApplyWait fuel carina op t0
      = (OutOfFuel,
         t1 ++ EvSleep (40 * 1000000000)
               :: tenSecondPolls (ClusterName carina) fuel)
      /\ countGets (tenSecondPolls (ClusterName carina) fuel) = fuel
      /\ Forall (fun ev => isOutput ev = false)
                (EvSleep (40 * 1000000000)
                   :: tenSecondPolls (ClusterName carina) fuel).
Proof.
  intros carina op t0 t1 c0 err0 Hw Hop Hb Hstuck fuel.
  rewrite tenSecondPolls_eq. change (40 * 1000000000) with startupFudgeFactor.
  split; [|split].
  - rewrite (clusterApplyWait_wait _ _ _ _ _ _ _ Hw Hop). unfold bind.
    rewrite (waitLoop_stuck carina Hstuck fuel c0 err0 _ Hb).
    now rewrite <- app_assoc.
  - apply countGets_polls.
  - constructor; [reflexivity|apply polls_no_output].
Qed.

(** ** [credentials] with a path, without a bundle, with an empty one *)

(** What [Download] does once the API has answered without error. *)
Lemma Download_fetched sys (carina : CredentialsCommand) (t : Trace)
      (credentials : option Credentials) :
  client_GetCredentials (ClusterClient carina) t (ClusterName carina)
  = (credentials, None) ->
  let dir := destination carina in
  let fetched := t ++ [EvGetCredentials (ClusterName carina)] in
  Download sys carina t
  = if String.eqb dir "." then Download_write sys carina credentials dir fetched
    else match os_MkdirAll sys fetched dir perm_0777 with
         | Some e => (Returned (Some e), fetched ++ [EvMkdirAll dir perm_0777])
         | None => Download_write sys carina credentials dir
                                  (fetched ++ [EvMkdirAll dir perm_0777])
         end.
Proof.
  intros Hg dir fetched.
  unfold Download, bind at 1, ClusterClient_GetCredentials, ask.
  rewrite Hg. cbv iota zeta. fold (destination carina). fold dir fetched.
  destruct (String.eqb dir "."); simpl negb; cbv iota.
  - reflexivity.
  - unfold bind at 1, MkdirAll, ask.
    destruct (os_MkdirAll sys fetched dir perm_0777); reflexivity.
Qed.

(** X9. With [--path], the destination is the cleaned path and the cluster
    name only names the bundle to fetch: the directory asked for, with
    mode 0777 (511), is [path.Clean] of the path (none for "."), a failing
    [os.MkdirAll] is returned before any file is written, and when every
    write succeeds each file is written with mode 0600 (384) at
    [path.Join] of that directory and its name, the hint is printed for
    the directory, and the sink is flushed.  A file is written inside the
    directory, at directory/name, when the directory and its name are
    single path elements. *)
Theorem Download_into_explicit_path :
  forall (sys : System) (carina : CredentialsCommand) (t : Trace)
         (creds : Credentials),
    Path carina <> "" ->
    client_GetCredentials (ClusterClient carina) t (ClusterName carina)
    = (Some creds, None) ->
    let dir := path.Clean (Path carina) in
    let fetched := t ++ [EvGetCredentials (ClusterName carina)] in
    let ready := if String.eqb dir "." then fetched
                 else fetched ++ [EvMkdirAll dir 511] in
    let files := range_Files sys ready (libcarina.Files creds) in
    let fileAt := fun fb : string * string =>
                    EvWriteFile (path.Join [dir; fb.1]) fb.2 384 in
    let written := map fileAt files in
    let hint := EvPrintln (sourceHelpString sys dir (os_Args0 sys)) in
    (forall e,
        dir <> "." ->
        os_MkdirAll sys fetched dir 511 = Some e ->
        Download sys carina t = (Returned (Some e), ready))
    /\ (dir = "." \/ os_MkdirAll sys fetched dir 511 = None ->
        writesOk sys dir ready files (length files) ->
        Download sys carina t
        = (Returned (writer_Flush (TabWriter carina) (ready ++ written ++ [hint])),
           ready ++ written ++ [hint; EvFlush]))
    /\ (plainName dir = true ->
        forall f b,
          plainName f = true ->
          fileAt (f, b) = EvWriteFile (dir +:+ "/" +:+ f) b 384).
Proof.
  intros sys carina t creds Hp Hg dir fetched ready files fileAt written hint.
  change fileAt with (fileEvent dir) in *.
  change 511 with perm_0777 in *. change 384 with perm_0600 in *.
  pose proof (Download_fetched sys carina t (Some creds) Hg) as HD.
  cbv zeta in HD.
  assert (Hdir : destination carina = dir).
  { unfold destination, dir. apply String.eqb_neq in Hp. now rewrite Hp. }
  rewrite Hdir in HD. fold fetched in HD. split; [|split].
  - intros e Hnd Hm. rewrite HD. unfold ready.
    destruct (String.eqb dir ".") eqn:Hdot.
    + apply String.eqb_eq in Hdot. contradiction.
    + now rewrite Hm.
  - intros Hmk Hok.
    assert (HD' : Download sys carina t
                  = Download_write sys carina (Some creds) dir ready).
    { rewrite HD. unfold ready. destruct (String.eqb dir ".") eqn:Hdot.
      - reflexivity.
      - destruct Hmk as [Hmk|Hmk].
        + apply String.eqb_neq in Hdot. contradiction.
        + now rewrite Hmk. }
    rewrite HD'. now apply Download_write_all.
  - intros Hplain f b Hf. unfold fileEvent. cbn [fst snd].
    now rewrite (Join_two_plain dir f Hplain Hf).
Qed.

(** X10. When fetching the bundle fails, [credentials] returns the error
    and touches neither the file system nor the output.  When the API
    answers with neither a bundle nor an error, the directory is still
    asked for, and the command then panics on the nil bundle without
    having written a file. *)
Theorem Download_without_a_bundle :
  forall (sys : System) (carina : CredentialsCommand) (t : Trace),
    let dir := destination carina in
    let fetched := t ++ [EvGetCredentials (ClusterName carina)] in
    (forall credentials e,
        client_GetCredentials (ClusterClient carina) t (ClusterName carina)
        = (credentials, Some e) ->
        Download sys carina t = (Returned (Some e), fetched))
    /\ (client_GetCredentials (ClusterClient carina) t (ClusterName carina)
        = (None, None) ->
        dir <> "." ->
        os_MkdirAll sys fetched dir 511 = None ->
        Download sys carina t = (Panicked, fetched ++ [EvMkdirAll dir 511]))
    /\ (client_GetCredentials (ClusterClient carina) t (ClusterName carina)
        = (None, None) ->
        dir = "." ->
        Download sys carina t = (Panicked, fetched)).
Proof.
  intros sys carina t dir fetched. change 511 with perm_0777.
  split; [|split].
  - intros credentials e Hg.
    unfold Download, bind at 1, ClusterClient_GetCredentials, ask.
    now rewrite Hg.
  - intros Hg Hnd Hm. rewrite (Download_fetched sys carina t None Hg).
    fold dir fetched. apply String.eqb_neq in Hnd. now rewrite Hnd, Hm.
  - intros Hg Hd. rewrite (Download_fetched sys carina t None Hg).
    fold dir fetched. apply String.eqb_eq in Hd. now rewrite Hd.
Qed.

(** X11. An empty bundle is no error: the directory is asked for, no file
    is written, the hint is printed and the sink flushed. *)
Theorem Download_empty_bundle :
  forall (sys : System) (carina : CredentialsCommand) (t : Trace)
         (creds : Credentials),
    range_visits_all sys ->
    libcarina.Files creds = ∅ ->
    client_GetCredentials (ClusterClient carina) t (ClusterName carina)
    = (Some creds, None) ->
    let dir := destination carina in
    let fetched := t ++ [EvGetCredentials (ClusterName carina)] in
    let ready := if String.eqb dir "." then fetched
                 else fetched ++ [EvMkdirAll dir 511] in
    let hint := EvPrintln (sourceHelpString sys dir (os_Args0 sys)) in
    dir = "." \/ os_MkdirAll sys fetched dir 511 = None ->
    Download sys carina t
    = (Returned (writer_Flush (TabWriter carina) (ready ++ [hint])),
       ready ++ [hint; EvFlush]).
Proof.
  intros sys carina t creds Hrange Hempty Hg dir fetched ready hint Hmk.
  change 511 with perm_0777 in *.
  assert (Hfiles : range_Files sys ready (libcarina.Files creds) = []).
  { apply Permutation_nil_r. rewrite (Hrange ready (libcarina.Files creds)).
    now rewrite Hempty, map_to_list_empty. }
  assert (HD' : Download sys carina t
                = Download_write sys carina (Some creds) dir ready).
  { rewrite (Download_fetched sys carina t (Some creds) Hg).
    fold dir fetched. unfold ready.
    destruct (String.eqb dir ".") eqn:Hdot.
    - reflexivity.
    - destruct Hmk as [Hmk|Hmk].
      + apply String.eqb_neq in Hdot. contradiction.
      + now rewrite Hmk. }
  rewrite HD', (Download_write_all sys carina creds dir ready).
  - now rewrite Hfiles.
  - rewrite Hfiles. intros i entry Hi. cbn in Hi. lia.
Qed.

(** ** What a command never does *)

Lemma emits_List_range (P : Event -> Prop) w clusterList :
  (forall buf, P (EvWrite buf)) -> emits P (List_range w clusterList).
Proof.
  intros HP. induction clusterList as [|c l IH]; cbn [List_range].
  - apply emits_ret.
  - emits_run; auto.
Qed.

Lemma emits_writeCredentials_files (P : Event -> Prop) sys pth files :
  (forall p data, P (EvWriteFile p data perm_0600)) ->
  emits P (writeCredentials_range sys pth files).
Proof.
  intros HP. induction files as [|[fname b] files IH];
    cbn [writeCredentials_range].
  - apply emits_ret.
  - unfold WriteFile. apply emits_bind; [apply emits_ask, HP|].
    intros [e|]; [apply emits_ret|exact IH].
Qed.

(** X12. A command keeps to its own business.  Its API calls are its own
    call on its own cluster ([create] sends its own request, [grow] its
    own delta) and, for [create] and [rebuild], re-fetches of that same
    cluster; so [get] and [list] change nothing, and only [delete]
    deletes.  Only [create] and [rebuild] sleep, for 40 or 10 seconds.
    Only [credentials] makes a directory (mode 0777), writes files (mode
    0600) or prints to standard output, and it writes no row. *)
Theorem commands_keep_to_their_own_effects :
  forall (fuel : nat) (sys : System) (a : Action) (t : Trace),
    exists evs,
      snd (runAction fuel sys a t) = t ++ evs
      /\ Forall (ownEffect a) evs.
Proof.
  intros fuel sys a t.
  enough (H : emits (ownEffect a) (runAction fuel sys a)) by apply H.
  destruct a as [carina|carina|carina|carina|carina|carina|carina]; simpl.
  - unfold Create, Create_op. emits_run; cbn; auto.
  - unfold Get. emits_run; cbn; auto.
  - unfold List. emits_run; cbn; auto.
    apply emits_List_range. cbn. auto.
  - unfold Download, Download_write, writeCredentials. emits_run; cbn; auto;
      apply emits_writeCredentials_files; cbn; auto.
  - unfold Grow. emits_run; cbn; auto.
  - unfold Rebuild. emits_run; cbn; auto.
  - unfold Delete. emits_run; cbn; auto.
Qed.

(** ** Where the files of a bundle are written *)

Lemma writeCredentials_range_prefix sys dir files : forall t,
  exists k,
    snd (writeCredentials_range sys dir files t)
    = t ++ map (fileEvent dir) (take k files).
Proof.
  induction files as [|[fname b] files IH]; intros t.
  - exists 0%nat. cbn. now rewrite app_nil_r.
  - cbn [writeCredentials_range]. unfold bind, WriteFile, ask.
    destruct (ioutil_WriteFile sys t (path.Join [dir; fname]) b perm_0600).
    + exists 1%nat. reflexivity.
    + change (EvWriteFile (path.Join [dir; fname]) b perm_0600)
        with (fileEvent dir (fname, b)).
      destruct (IH (t ++ [fileEvent dir (fname, b)])) as (k & E).
      exists (S k). rewrite E. cbn [take map]. now rewrite <- app_assoc.
Qed.

(** X13. When the destination and the names of the files in the bundle
    are single path elements, [writeCredentials] writes only files of the
    bundle, each with the content the bundle gives it, at the destination,
    a slash, and its name, with mode 0600; and it writes no path twice. *)
Theorem bundle_files_land_in_destination :
  forall (sys : System) (w : Writer) (creds : Credentials) (dir : string)
         (t : Trace),
    range_visits_all sys ->
    plainName dir = true ->
    (forall f b, libcarina.Files creds !! f = Some b -> plainName f = true) ->
    exists written : list (string * string),
      snd (writeCredentials sys w (Some creds) dir t)
      = t ++ map (fun fb => EvWriteFile (dir +:+ "/" +:+ fb.1) fb.2 384)
                 written
      /\ (forall f b, (f, b) ∈ written -> libcarina.Files creds !! f = Some b)
      /\ NoDup (map (fun fb => dir +:+ "/" +:+ fb.1) written).
Proof.
  intros sys w creds dir t Hrange Hdir Hplain.
  change 384 with perm_0600.
  rewrite writeCredentials_some.
  set (files := range_Files sys t (libcarina.Files creds)).
  destruct (writeCredentials_range_prefix sys dir files t) as (k & E).
  assert (Hin : forall f b, (f, b) ∈ take k files ->
                            libcarina.Files creds !! f = Some b).
  { intros f b Hfb. apply elem_of_map_to_list.
    rewrite <- (Hrange t (libcarina.Files creds)).
    now apply (subseteq_take k files). }
  exists (take k files). split; [|split].
  - rewrite E. f_equal. apply Forall_fmap_ext_1, Forall_forall.
    intros [f b] Hfb. unfold fileEvent. cbn [fst snd].
    now rewrite (Join_two_plain dir f Hdir (Hplain f b (Hin f b Hfb))).
  - exact Hin.
  - change (map (fun fb : string * string => dir +:+ "/" +:+ fb.1) (take k files))
      with ((fun fb : string * string => dir +:+ "/" +:+ fb.1) <$> take k files).
    apply NoDup_fmap_2_strong.
    + intros [f b] [f' b'] Hfb Hfb' Heq. cbn [fst] in Heq.
      apply (inj (String.append dir)), (inj (String.append "/")) in Heq.
      subst f'. apply Hin in Hfb. apply Hin in Hfb'. congruence.
    + apply (sublist_NoDup _ files); [|apply sublist_take].
      unfold files. rewrite (Hrange t (libcarina.Files creds)).
      apply NoDup_map_to_list.
Qed.

(** ** The columns of a row *)

Lemma countByte_app (b : ascii) (s1 s2 : string) :
  countByte b (s1 +:+ s2) = (countByte b s1 + countByte b s2)%nat.
Proof.
  induction s1 as [|c s1 IH]; [reflexivity|].
  change (String c s1 +:+ s2) with (String c (s1 +:+ s2)).
  cbn [countByte]. rewrite IH. lia.
Qed.

Lemma digit_not_tab (k : N) : (k < 10)%N -> Ascii.eqb (digit k) tabByte = false.
Proof.
  intros Hk. apply Ascii.eqb_neq. intros Heq.
  pose proof (digit_numeric k Hk) as Hnum. rewrite Heq in Hnum.
  discriminate Hnum.
Qed.

Lemma formatPos_tabs fuel : forall n acc,
  countByte tabByte (formatPos fuel n acc) = countByte tabByte acc.
Proof.
  induction fuel as [|fuel IH]; intros n acc; cbn [formatPos]; [reflexivity|].
  assert (Hd : Ascii.eqb (digit (n mod 10)) tabByte = false)
    by (apply digit_not_tab, N.mod_lt; discriminate).
  destruct (n / 10 =? 0)%N.
  - cbn [countByte]. now rewrite Hd.
  - rewrite IH. cbn [countByte]. now rewrite Hd.
Qed.

Lemma FormatInt_tabs (i : Z) : countByte tabByte (strconv_FormatInt i) = 0%nat.
Proof.
  destruct i as [|p|p]; unfold strconv_FormatInt, formatN.
  - reflexivity.
  - now rewrite formatPos_tabs.
  - now rewrite countByte_app, formatPos_tabs.
Qed.

(** X14. A row has the four column separators of the header, and besides
    them only the tabs that the name, the flavor and the status of the
    cluster hold themselves: the node count and the autoscale flag never
    add a column. *)
Theorem row_has_the_columns_of_the_header :
  forall (c : Cluster),
    countByte tabByte headerRow = 4%nat
    /\ countByte tabByte (clusterRow c +:+ newline)
       = (countByte tabByte headerRow
          + countByte tabByte (libcarina.ClusterName c)
          + countByte tabByte (libcarina.Flavor c)
          + countByte tabByte (libcarina.Status c))%nat.
Proof.
  intros c. split; [reflexivity|].
  rewrite clusterRow_fields, !countByte_app, FormatInt_tabs.
  change (countByte tabByte headerRow) with 4%nat.
  change (countByte tabByte tab) with 1%nat.
  change (countByte tabByte newline) with 0%nat.
  destruct (libcarina.AutoScale c); cbn [strconv_FormatBool];
    [change (countByte tabByte "true") with 0%nat
    |change (countByte tabByte "false") with 0%nat]; lia.
Qed.

(** ** [credentials] into the working directory *)

Lemma Join_dot_plain (f : string) :
  plainName f = true -> path.Join ["."; f] = f.
Proof.
  intros Hf. destruct f as [|c s]; [discriminate|].
  cbn [path.Join strings_Join]. change (String.eqb "." "") with false.
  cbv iota. unfold path.Clean.
  assert (Hl : list_ascii_of_string ("." +:+ "/" +:+ String c s)
               = dot :: slash :: c :: list_ascii_of_string s)
    by (rewrite !list_ascii_app; reflexivity).
  rewrite Hl. cbv beta iota zeta.
  change (Ascii.eqb dot slash) with false. cbv iota.
  change (length (dot :: slash :: c :: list_ascii_of_string s))
    with (S (S (S (length (list_ascii_of_string s))))).
  change (path.Clean_loop (S (S (S (length (list_ascii_of_string s))))) false
            (dot :: slash :: c :: list_ascii_of_string s) [] 0)
    with (path.Clean_loop (S (length (list_ascii_of_string s))) false
            (c :: list_ascii_of_string s) [] 0).
  pose proof (Clean_loop_elem c s [] [] (length (list_ascii_of_string s))
                Hf eq_refl) as Hloop.
  rewrite app_nil_r in Hloop. rewrite Hloop, Clean_loop_done.
  cbn [length Nat.eqb]. rewrite app_nil_r.
  destruct (rev (c :: list_ascii_of_string s)) as [|x l] eqn:Hrev.
  - apply (f_equal (@length ascii)) in Hrev. rewrite length_rev in Hrev.
    discriminate.
  - rewrite <- Hrev, rev_involutive.
    change (c :: list_ascii_of_string s) with (list_ascii_of_string (String c s)).
    apply string_of_list_ascii_of_string.
Qed.

(** X15. When the destination cleans to ".", [credentials] makes no
    directory, and the files of the bundle whose names are single path
    elements are written under their bare names, in the working
    directory. *)
Theorem Download_into_working_directory :
  forall (sys : System) (carina : CredentialsCommand) (t : Trace)
         (creds : Credentials),
    range_visits_all sys ->
    destination carina = "." ->
    client_GetCredentials (ClusterClient carina) t (ClusterName carina)
    = (Some creds, None) ->
    (forall f b, libcarina.Files creds !! f = Some b -> plainName f = true) ->
    let fetched := t ++ [EvGetCredentials (ClusterName carina)] in
    let files := range_Files sys fetched (libcarina.Files creds) in
    let written := map (fun fb => EvWriteFile fb.1 fb.2 384) files in
    let hint := EvPrintln (sourceHelpString sys "." (os_Args0 sys)) in
    writesOk sys "." fetched files (length files) ->
    Download sys carina t
    = (Returned (writer_Flush (TabWriter carina) (fetched ++ written ++ [hint])),
       fetched ++ written ++ [hint; EvFlush]).
Proof.
  intros sys carina t creds Hrange Hdot Hg Hplain fetched files written hint Hok.
  change 384 with perm_0600 in written.
  rewrite (Download_fetched sys carina t (Some creds) Hg). rewrite Hdot.
  change (String.eqb "." ".") with true. cbv iota. fold fetched.
  rewrite (Download_write_all sys carina creds "." fetched Hok). fold files.
  assert (Hw : map (fileEvent ".") files = written).
  { unfold written. apply Forall_fmap_ext_1, Forall_forall.
    intros [f b] Hfb. unfold fileEvent. cbn [fst snd].
    rewrite (Join_dot_plain f); [reflexivity|]. apply (Hplain f b).
    apply elem_of_map_to_list.
    now rewrite <- (Hrange fetched (libcarina.Files creds)). }
  now rewrite Hw.
Qed.

(** ** The time a wait takes *)

Lemma totalSleep_app (t1 t2 : Trace) :
  totalSleep (t1 ++ t2) = totalSleep t1 + totalSleep t2.
Proof.
  induction t1 as [|e t1 IH]; [reflexivity|].
  destruct e; cbn [app totalSleep]; rewrite IH; lia.
Qed.

Lemma countGets_app (t1 t2 : Trace) :
  countGets (t1 ++ t2) = (countGets t1 + countGets t2)%nat.
Proof. unfold countGets. now rewrite List.filter_app, length_app. Qed.

Lemma totalSleep_polls (name : string) (n : nat) :
  totalSleep (polls name n) = Z.of_nat n * waitBetween.
Proof.
  induction n as [|n IH]; [reflexivity|].
  rewrite polls_S. cbn [app totalSleep]. rewrite IH. lia.
Qed.

Lemma waitShape_time name wait fuel evs :
  waitShape name wait fuel evs ->
  totalSleep evs
  = (if wait then startupFudgeFactor else 0)
    + Z.of_nat (countGets evs) * waitBetween.
Proof.
  intros (n & tail & -> & _ & Hnowait & Htail).
  rewrite tenSecondPolls_eq. change (40 * 1000000000) with startupFudgeFactor.
  assert (Ht : totalSleep tail = 0 /\ countGets tail = 0%nat).
  { destruct Htail as [->|[row [->| ->]]]; split; reflexivity. }
  destruct Ht as [Hts Htg].
  rewrite totalSleep_app, countGets_app, Hts, Htg.
  destruct wait.
  - cbn [totalSleep]. rewrite totalSleep_polls.
    change (countGets (EvSleep startupFudgeFactor :: polls name n))
      with (countGets (polls name n)).
    rewrite countGets_polls. lia.
  - reflexivity.
Qed.

(** X16. The time [rebuild] sleeps is fixed by what it fetches: 40
    seconds for waiting at all, and 10 seconds for every [Get]; without
    [--wait] it neither sleeps nor fetches, and with it the fetches are as
    many as the rounds of the loop. *)
Theorem Rebuild_sleeps_ten_seconds_per_fetch :
  forall (fuel : nat) (carina : WaitClusterCommand) (t : Trace),
    exists evs,
      snd (Rebuild fuel carina t) = t ++ evs
      /\ totalSleep evs
         = (if Wait carina then 40 * 1000000000 else 0)
           + Z.of_nat (countGets evs) * (10 * 1000000000)
      /\ (if Wait carina then (countGets evs <= fuel)%nat
          else countGets evs = 0%nat).
Proof.
  intros fuel carina t. unfold Rebuild.
  change (10 * 1000000000) with waitBetween.
  change (40 * 1000000000) with startupFudgeFactor.
  destruct (clusterApplyWait_shape fuel carina (ClusterClient_Rebuild carina) t
              (t ++ [EvRebuild (ClusterName carina)])
              (client_Rebuild (ClusterClient carina) t (ClusterName carina))
              eq_refl) as (evs & E & Hs).
  exists (EvRebuild (ClusterName carina) :: evs).
  change (totalSleep (EvRebuild (ClusterName carina) :: evs))
    with (totalSleep evs).
  change (countGets (EvRebuild (ClusterName carina) :: evs))
    with (countGets evs).
  split; [now rewrite E, <- app_assoc|]. split.
  - apply (waitShape_time _ _ _ _ Hs).
  - destruct Hs as (n & tail & -> & Hn & Hnowait & Htail).
    rewrite tenSecondPolls_eq. change (40 * 1000000000) with startupFudgeFactor.
    assert (Htg : countGets tail = 0%nat)
      by (destruct Htail as [->|[row [->| ->]]]; reflexivity).
    rewrite countGets_app, Htg. destruct (Wait carina).
    + change (countGets (EvSleep startupFudgeFactor
                           :: polls (ClusterName carina) n))
        with (countGets (polls (ClusterName carina) n)).
      rewrite countGets_polls. lia.
    + reflexivity.
Qed.

(** * The further properties at concrete runs *)

(** X1 at a backend with two clusters. *)
Lemma List_two_clusters :
  let clusterList := [aCluster "foo" "active"; aCluster "bar" "building"] in
  List (mkCommand (listingClient clusterList None) okWriter) []
  = (Returned None,
     [ EvList; EvWrite headerRow;
       rowEvent (aCluster "foo" "active"); rowEvent (aCluster "bar" "building");
       EvFlush ]).
Proof.
  intros clusterList.
  apply (List_writes_header_then_rows_in_order
           (mkCommand (listingClient clusterList None) okWriter) [] clusterList).
  - reflexivity.
  - reflexivity.
  - intros i c _ _. reflexivity.
Defined.

(** X2 at a sink that takes the header and refuses the first row. *)
Lemma List_first_row_refused :
  let clusterList := [aCluster "foo" "active"; aCluster "bar" "building"] in
  List (mkCommand (listingClient clusterList None) headerOnly) []
  = (Returned (Some diskFull),
     [EvList; EvWrite headerRow; rowEvent (aCluster "foo" "active")]).
Proof.
  intros clusterList.
  destruct (List_stops_at_first_error
              (mkCommand (listingClient clusterList None) headerOnly) []
              clusterList diskFull) as (_ & _ & Hrow).
  apply (Hrow 0%nat (aCluster "foo" "active")).
  - reflexivity.
  - reflexivity.
  - reflexivity.
  - intros i c Hi. lia.
  - reflexivity.
Defined.

(** X3 at [delete foo]. *)
Lemma Delete_prints_the_deleted_cluster :
  let c := aCluster "foo" "deleted" in
  let client := scriptedClient (fetched c) [] (None, None) in
  Delete (mkClusterCommand client okWriter "foo") []
  = (Returned None, [EvDelete "foo"; rowEvent c; EvFlush]).
Proof.
  intros c client.
  apply (apply_renders_what_the_backend_returned
           (ApplyDelete (mkClusterCommand client okWriter "foo")) [] c);
    reflexivity.
Defined.

(** X4 at [get foo] answered with neither a cluster nor an error. *)
Lemma Get_nil_cluster_panics :
  let client := scriptedClient (None, None) [(None, None)] (None, None) in
  Get (mkClusterCommand client okWriter "foo") [] = (Panicked, [EvGet "foo"]).
Proof.
  intros client.
  destruct (nil_cluster_without_error_panics
              (ApplyGet (mkClusterCommand client okWriter "foo"))
              (mkWait client okWriter "foo" false)
              (ClusterClient_Rebuild (mkWait client okWriter "foo" false))
              0 [] []) as (Hget & _).
  apply Hget. reflexivity.
Defined.

(** X6 at [create foo --nodes=2 --autoscale --wait]. *)
Lemma Create_request_for_two_nodes :
  let client := scriptedClient (fetched (aCluster "foo" "active")) [] (None, None) in
  let carina := mkCreate client okWriter "foo" true 2 true in
  exists evs,
    snd (Create 1 carina []) = [] ++ EvCreate (mkCluster "foo" "" 2 true "") :: evs
    /\ waitShape "foo" true 1 evs.
Proof.
  intros client carina.
  apply (Create_sends_one_request 1 carina []). cbn. lia.
Defined.

(** X7 at a backend on which the cluster stays in "building". *)
Lemma Rebuild_never_done :
  let c := aCluster "foo" "building" in
  let carina := mkWait (stuckClient c) okWriter "foo" true in
  Rebuild 3 carina []
  = (OutOfFuel,
     [ EvRebuild "foo"; EvSleep 40000000000;
       EvSleep 10000000000; EvGet "foo";
       EvSleep 10000000000; EvGet "foo";
       EvSleep 10000000000; EvGet "foo" ]).
Proof.
  intros c carina.
  apply (wait_polls_for_ever_while_building
           carina (ClusterClient_Rebuild carina) [] [EvRebuild "foo"] c None).
  - reflexivity.
  - reflexivity.
  - reflexivity.
  - intros t'. exists c. split; reflexivity.
Defined.

(** X9 at [credentials foo --path out/]. *)
Lemma Download_into_out :
  let client := scriptedClient failed [] (Some oneFile, None) in
  Download okSystem (mkCredentials client okWriter "foo" "out/") []
  = (Returned None,
     [ EvGetCredentials "foo"; EvMkdirAll "out" 511;
       EvWriteFile "out/ca.pem" "CERT" 384;
       EvPrintln "source out/docker.env"; EvFlush ]).
Proof.
  intros client.
  destruct (Download_into_explicit_path
              okSystem (mkCredentials client okWriter "foo" "out/") [] oneFile)
    as (_ & Hall & _).
  - discriminate.
  - reflexivity.
  - apply Hall.
    + right. reflexivity.
    + intros i entry _ _. reflexivity.
Defined.

(** X10 at a backend that is down. *)
Lemma Download_backend_down :
  let client := scriptedClient failed [] (None, Some apiDown) in
  Download okSystem (mkCredentials client okWriter "foo" "") []
  = (Returned (Some apiDown), [EvGetCredentials "foo"]).
Proof.
  intros client.
  destruct (Download_without_a_bundle
              okSystem (mkCredentials client okWriter "foo" "") [])
    as (Hfail & _).
  apply (Hfail None apiDown). reflexivity.
Defined.

(** X11 at a bundle without files. *)
Lemma Download_no_files :
  let client := scriptedClient failed [] (Some noFiles, None) in
  Download okSystem (mkCredentials client okWriter "foo" "") []
  = (Returned None,
     [ EvGetCredentials "foo"; EvMkdirAll "foo" 511;
       EvPrintln "source foo/docker.env"; EvFlush ]).
Proof.
  intros client.
  apply (Download_empty_bundle
           okSystem (mkCredentials client okWriter "foo" "") [] noFiles).
  - intros t m. reflexivity.
  - reflexivity.
  - reflexivity.
  - right. reflexivity.
Defined.

(** X13 at a bundle of two files written into foo. *)
Lemma two_files_land_in_foo :
  exists written : list (string * string),
    snd (writeCredentials okSystem okWriter (Some twoFiles) "foo" [])
    = [] ++ map (fun fb => EvWriteFile ("foo" +:+ "/" +:+ fb.1) fb.2 384)
                written
    /\ (forall f b, (f, b) ∈ written -> libcarina.Files twoFiles !! f = Some b)
    /\ NoDup (map (fun fb => "foo" +:+ "/" +:+ fb.1) written).
Proof.
  apply (bundle_files_land_in_destination okSystem okWriter twoFiles "foo" []).
  - intros t m. reflexivity.
  - reflexivity.
  - intros f b Hfb. unfold twoFiles in Hfb. cbn [libcarina.Files] in Hfb.
    apply lookup_insert_Some in Hfb.
    destruct Hfb as [[<- _]|[_ Hfb]]; [reflexivity|].
    apply lookup_singleton_Some in Hfb. destruct Hfb as [<- _]. reflexivity.
Defined.

(** X15 at [credentials foo --path .]. *)
Lemma Download_into_dot :
  let client := scriptedClient failed [] (Some oneFile, None) in
  Download okSystem (mkCredentials client okWriter "foo" ".") []
  = (Returned None,
     [ EvGetCredentials "foo"; EvWriteFile "ca.pem" "CERT" 384;
       EvPrintln "source ./docker.env"; EvFlush ]).
Proof.
  intros client.
  apply (Download_into_working_directory
           okSystem (mkCredentials client okWriter "foo" ".") [] oneFile).
  - intros t m. reflexivity.
  - reflexivity.
  - reflexivity.
  - intros f b Hfb. unfold oneFile in Hfb. cbn [libcarina.Files] in Hfb.
    apply lookup_singleton_Some in Hfb. destruct Hfb as [<- _]. reflexivity.
  - intros i entry _ _. reflexivity.
Defined.
